(** * Pre-trade checklist evaluator: a shallow embedding of [src/trade.py]

    The script collects a trader's read of the market at the prompt and then
    runs a small rules engine, a stop / take-profit calculator and a position
    sizer over the answers.  This file embeds the computational part:

    - [Text]      the Python [str] operations the script relies on
                  ([strip], [split], [lower], [in], [join], [int]);
    - [Clock]     [datetime.time], [parse_time_str], [time_in_windows] and
                  [parse_windows_input];
    - [Binary64]  Python floats as IEEE-754 binary64 numbers, with the
                  built-in [round(x, n)] and the [.2f] format;
    - [Calc]      [suggest_stop_from_atr] and [r_multiples];
    - [Engine]    the body of [main] after the prompts: rules 1-5, stop and
                  take-profit calculation, position sizing, and the verdict
                  line of the report;
    - [Prompt]    [get_input] and the sequence of prompts of [main], over
                  the lines typed at the terminal;
    - [Report]    the lines of the report about the setup time and the stop.

    Text is read as a sequence of bytes (a Rocq [string]); white space,
    digits and letters are the ASCII ones, so [Text.strip], [Text.lower]
    and [Text.int] are Python's on ASCII text ([Text.ascii_text]).  The
    properties of what is typed are stated for such text; the properties
    of the time check are stated for any function in the place of
    [parse_time_str] ([evaluate_by]), so that they do not depend on which
    texts are read as times.  Enumerated answers ([get_input] with a
    [valid] tuple) are inductive types, because [get_input] only ever
    returns one of the listed values in lower case.  Exceptions are values
    of an [outcome] type; the only construct of the embedded code that can
    raise past its caller is the tuple unpacking in [parse_windows_input]. *)

From Stdlib Require Import ZArith List String Ascii Bool Lia Floats DecimalString.
From Stdlib Require Import Permutation.
Import ListNotations.

Set Warnings "-inexact-float".

(* ================================================================== *)
(** ** Python exceptions as data *)

Inductive exn : Type :=
| ValueError (msg : string)
| TypeError (msg : string).

Inductive outcome (A : Type) : Type :=
| Returned (a : A)
| Raised (e : exn).

Arguments Returned {A} a.
Arguments Raised {A} e.

Definition bind {A B : Type} (c : outcome A) (k : A -> outcome B) : outcome B :=
  match c with
  | Returned a => k a
  | Raised e => Raised e
  end.

Notation "x <- c ;; k" := (bind c (fun x => k))
  (at level 61, c at next level, right associativity).

(** [try: body  except Exception: handler]. *)
Definition try_except {A : Type} (body : outcome A) (handler : exn -> A) : A :=
  match body with
  | Returned a => a
  | Raised e => handler e
  end.

(* ================================================================== *)
(** ** Python [str] operations *)

Module Text.

Local Open Scope char_scope.

(** [str.isspace] on the ASCII range: tab, newline, vertical tab, form feed,
    carriage return, the four separators 0x1c-0x1f, and the space. *)
Definition is_space (c : ascii) : bool :=
  let n := nat_of_ascii c in
  ((9 <=? n) && (n <=? 13) || (28 <=? n) && (n <=? 32))%nat.

Definition is_digit (c : ascii) : bool :=
  let n := nat_of_ascii c in
  ((48 <=? n) && (n <=? 57))%nat.

Definition digit_value (c : ascii) : Z :=
  Z.of_nat (nat_of_ascii c) - 48.

(** [c.lower()] on the ASCII range; other bytes are kept, so that [lower]
    below is [str.lower] on ASCII text only. *)
Definition lower_char (c : ascii) : ascii :=
  let n := nat_of_ascii c in
  if ((65 <=? n) && (n <=? 90))%nat then ascii_of_nat (n + 32) else c.

Local Open Scope string_scope.

Definition is_empty (s : string) : bool :=
  match s with
  | EmptyString => true
  | String _ _ => false
  end.

(** Truth value of a [str]: non-empty. *)
Definition truthy (s : string) : bool := negb (is_empty s).

Fixpoint lower (s : string) : string :=
  match s with
  | EmptyString => EmptyString
  | String c rest => String (lower_char c) (lower rest)
  end.

Fixpoint lstrip (s : string) : string :=
  match s with
  | EmptyString => EmptyString
  | String c rest => if is_space c then lstrip rest else s
  end.

Fixpoint rstrip (s : string) : string :=
  match s with
  | EmptyString => EmptyString
  | String c rest =>
      let rest' := rstrip rest in
      if is_space c && is_empty rest' then EmptyString else String c rest'
  end.

Definition strip (s : string) : string := rstrip (lstrip s).

(** [s.split(sep)] for a one-character separator: empty fields are kept and
    the empty string splits into one empty field. *)
Fixpoint split (sep : ascii) (s : string) : list string :=
  match s with
  | EmptyString => [EmptyString]
  | String c rest =>
      if Ascii.eqb c sep then EmptyString :: split sep rest
      else match split sep rest with
           | [] => [String c EmptyString]
           | field :: fields => String c field :: fields
           end
  end.

(** [needle in hay] for strings: substring search. *)
Fixpoint contains (needle hay : string) : bool :=
  if String.prefix needle hay then true
  else match hay with
       | EmptyString => false
       | String _ rest => contains needle rest
       end.

(** [sep.join(items)]. *)
Definition join (sep : string) (items : list string) : string :=
  String.concat sep items.

(** [x in items] for a list of strings. *)
Definition mem (x : string) (items : list string) : bool :=
  existsb (String.eqb x) items.

(** The digits of a decimal literal as [int] accepts them: at least one
    digit, single underscores allowed between digits. *)
Fixpoint int_digits (acc : Z) (after_digit : bool) (s : string) : option Z :=
  match s with
  | EmptyString => if after_digit then Some acc else None
  | String c rest =>
      if is_digit c then int_digits (10 * acc + digit_value c) true rest
      else if Ascii.eqb c "_"%char then
             if after_digit then int_digits acc false rest else None
           else None
  end.

(** The white space [int] skips around an ASCII literal: tab, newline,
    vertical tab, form feed, carriage return and the space, without the
    separators 0x1c-0x1f that [strip] removes. *)
Definition is_int_space (c : ascii) : bool :=
  let n := nat_of_ascii c in
  ((9 <=? n) && (n <=? 13) || (n =? 32))%nat.

Fixpoint int_lstrip (s : string) : string :=
  match s with
  | EmptyString => EmptyString
  | String c rest => if is_int_space c then int_lstrip rest else s
  end.

Fixpoint int_rstrip (s : string) : string :=
  match s with
  | EmptyString => EmptyString
  | String c rest =>
      let rest' := int_rstrip rest in
      if is_int_space c && is_empty rest' then EmptyString else String c rest'
  end.

(** The number of digits of a literal, leading zeros included. *)
Fixpoint digit_count (s : string) : Z :=
  match s with
  | EmptyString => 0%Z
  | String c rest => ((if is_digit c then 1 else 0) + digit_count rest)%Z
  end.

(** [sys.int_max_str_digits], at its default. *)
Definition max_str_digits : Z := 4300%Z.

(** [int(s)] for ASCII text: white space around, an optional sign, decimal
    digits, no more of them than the interpreter converts.  [None] stands
    for the [ValueError] Python raises. *)
Definition int (s : string) : option Z :=
  let body := int_rstrip (int_lstrip s) in
  if (max_str_digits <? digit_count body)%Z then None
  else
    match body with
    | String "+"%char rest => int_digits 0 false rest
    | String "-"%char rest => option_map Z.opp (int_digits 0 false rest)
    | _ => int_digits 0 false body
    end.

(** Text made of ASCII characters only: on such text [strip], [lower] and
    [int] above are Python's. *)
Definition is_ascii (c : ascii) : bool := (nat_of_ascii c <? 128)%nat.

Fixpoint ascii_text (s : string) : bool :=
  match s with
  | EmptyString => true
  | String c rest => is_ascii c && ascii_text rest
  end.

End Text.

(* ================================================================== *)
(** ** Times of day and trading windows *)

Module Clock.

Local Open Scope Z_scope.

(** A naive [datetime.time] built with [time(hour=h, minute=m)]: seconds and
    microseconds are zero throughout the script. *)
Record time : Type := mkTime { hour : Z; minute : Z }.

(** [time(hour=h, minute=m)] raises [ValueError] outside 0..23 and 0..59. *)
Definition make_time (h m : Z) : option time :=
  if (0 <=? h) && (h <? 24) && (0 <=? m) && (m <? 60)
  then Some (mkTime h m) else None.

(** Comparison of naive times is comparison of (hour, minute, ...) tuples. *)
Definition time_cmp (a b : time) : comparison :=
  match hour a ?= hour b with
  | Eq => minute a ?= minute b
  | c => c
  end.

Definition time_le (a b : time) : bool :=
  match time_cmp a b with Gt => false | _ => true end.

Definition time_ge (a b : time) : bool :=
  match time_cmp a b with Lt => false | _ => true end.

(** [parse_time_str]: every exception ([int] on a bad field, unpacking a
    number of fields other than two, [time] out of range) gives [None]. *)
Definition parse_time_str (tstr : string) : option time :=
  match Text.split ":"%char (Text.strip tstr) with
  | [h_s; m_s] =>
      match Text.int h_s, Text.int m_s with
      | Some h, Some m => make_time h m
      | _, _ => None
      end
  | _ => None
  end.

Definition window : Type := (time * time)%type.

(** [time_in_windows]: the [for] loop returns at the first window that
    matches and falls through to [False]. *)
Fixpoint time_in_windows (t : time) (windows : list window) : bool :=
  match windows with
  | [] => false
  | (s, e) :: rest =>
      if time_le s e then
        if time_le s t && time_le t e then true
        else time_in_windows t rest
      else
        if time_ge t s || time_le t e then true
        else time_in_windows t rest
  end.

(** The loop of [parse_windows_input] over the stripped, non-empty parts.
    A part without a dash is skipped; [a, b = p.split("-")] raises
    [ValueError] unless the split has exactly two fields; a range is kept
    when both ends parse (a [time] object is always true). *)
Fixpoint parse_parts (parts : list string) (windows : list window)
  : outcome (list window) :=
  match parts with
  | [] => Returned windows
  | p :: rest =>
      if negb (Text.contains "-" p) then parse_parts rest windows
      else
        match Text.split "-"%char p with
        | [a; b] =>
            match parse_time_str a, parse_time_str b with
            | Some ta, Some tb => parse_parts rest (windows ++ [(ta, tb)])
            | _, _ => parse_parts rest windows
            end
        | [] | [_] =>
            Raised (ValueError "not enough values to unpack (expected 2)")
        | _ =>
            Raised (ValueError "too many values to unpack (expected 2)")
        end
  end.

Definition window_parts (win_str : string) : list string :=
  map Text.strip
      (filter (fun p => Text.truthy (Text.strip p))
              (Text.split ","%char win_str)).

Definition parse_windows_input (win_str : string) : outcome (list window) :=
  parse_parts (window_parts win_str) [].

End Clock.

(* ================================================================== *)
(** ** Python floats *)

Module Binary64.

(** A Python [float] is an IEEE-754 binary64 number: [+], [-], [*], [/],
    [abs] and [==] are the kernel's primitive operations. *)

Local Open Scope Z_scope.

(** [a / b] rounded to the nearest integer, ties to the even one
    ([0 <= a], [0 < b]). *)
Definition div_half_even (a b : Z) : Z :=
  let q := a / b in
  match 2 * (a mod b) ?= b with
  | Lt => q
  | Gt => q + 1
  | Eq => if Z.even q then q else q + 1
  end.

(** [m * 2^e * 10^ndigits] as an integer, correctly rounded: the digits
    the interpreter's decimal conversion produces for [ndigits] places. *)
Definition scaled_decimal (ndigits : Z) (m : positive) (e : Z) : Z :=
  if 0 <=? e then Z.pos m * 2 ^ e * 10 ^ ndigits
  else div_half_even (Z.pos m * 10 ^ ndigits) (2 ^ (- e)).

(** The binary64 number nearest to [n / d] ([0 <= n], [0 < d]), with sign
    [s]: the quotient is taken to 128 fractional bits, a sticky bit records
    an inexact quotient, and the mantissa is rounded to nearest-even. *)
Definition nearest_binary64 (s : bool) (n d : Z) : float :=
  let k := 128 in
  let q := (n * 2 ^ k) / d in
  let sticky := if (n * 2 ^ k) mod d =? 0 then 0 else 1 in
  let m := 2 * q + sticky in
  SF2Prim (SpecFloat.binary_normalize 53 1024 (if s then - m else m) (- k - 1) s).

(** [round(x, ndigits)] for [0 <= ndigits]: zeros, infinities and NaN
    round to themselves; a finite [x] is converted to the decimal with
    [ndigits] places nearest to it (ties to even) and that decimal is read
    back as a float. *)
Definition round (x : float) (ndigits : Z) : float :=
  match Prim2SF x with
  | S754_finite s m e =>
      if 0 <=? e then x
      else nearest_binary64 s (scaled_decimal ndigits m e) (10 ^ ndigits)
  | _ => x
  end.

(** Truth value of a float: [x != 0.0] (a NaN is true). *)
Definition truthy (x : float) : bool := negb (PrimFloat.eqb x 0%float).

Local Open Scope string_scope.

Definition decimal (n : Z) : string :=
  NilZero.string_of_uint (N.to_uint (Z.to_N n)).

Definition two_digits (n : Z) : string :=
  decimal (n / 10) ++ decimal (n mod 10).

Definition sign_text (s : bool) : string := if s then "-" else "".

(** [format(x, ".2f")]. *)
Definition format_2f (x : float) : string :=
  match Prim2SF x with
  | S754_nan => "nan"
  | S754_infinity s => sign_text s ++ "inf"
  | S754_zero s => sign_text s ++ "0.00"
  | S754_finite s m e =>
      let n := scaled_decimal 2 m e in
      sign_text s ++ decimal (n / 100) ++ "." ++ two_digits (n mod 100)
  end.

End Binary64.

(* ================================================================== *)
(** ** Stop and take-profit calculators *)

(** The answers [get_input(..., valid=("long", "short"))] can return. *)
Inductive side : Type := Long | Short.

Module Calc.

Local Open Scope float_scope.

(** [suggest_stop_from_atr(entry, direction, atr, atr_multiplier)]. *)
Definition suggest_stop_from_atr
  (entry : float) (d : side) (atr atr_multiplier : float)
  : float * float :=
  let dist := atr * atr_multiplier in
  let stop :=
    match d with
    | Long => Binary64.round (entry - dist) 5
    | Short => Binary64.round (entry + dist) 5
    end in
  (stop, Binary64.round dist 5).

(** One target price of [r_multiples]. *)
Definition target (entry stop_dist : float) (d : side) (r : float) : float :=
  match d with
  | Long => Binary64.round (entry + stop_dist * r) 5
  | Short => Binary64.round (entry - stop_dist * r) 5
  end.

(** The [for r in r_list] loop of [r_multiples], appending to [tps]. *)
Fixpoint r_loop (entry stop_dist : float) (d : side)
  (r_list : list float) (tps : list (float * float)) : list (float * float) :=
  match r_list with
  | [] => tps
  | r :: rest =>
      r_loop entry stop_dist d rest (tps ++ [(r, target entry stop_dist d r)])
  end.

Definition r_multiples (entry stop : float) (d : side) (r_list : list float)
  : list (float * float) :=
  let stop_dist := abs (entry - stop) in
  r_loop entry stop_dist d r_list [].

End Calc.

(* ================================================================== *)
(** ** The body of [main] after the prompts *)

Inductive structure : Type := Higher | Lower | Unclear.

Inductive environment : Type :=
| Expansion | Consolidation | Reversal | Retracement.

(** The answers [get_input(..., valid=("y", "n"))] can return. *)
Inductive yes_no : Type := Y | N.

(** A line typed at a numeric prompt, by what [float] makes of it: the empty
    line, a text [float] rejects (with the exception it raises), or a text
    it converts. *)
Inductive num_text : Type :=
| Blank
| Malformed (e : exn)
| Number (x : float).

(** A note of the report: a fixed sentence, or the sentence about the stop
    derived from ATR, which quotes the distance. *)
Inductive reason : Type :=
| Note (text : string)
| AtrStopNote (stop_distance : float).

(** The position-sizing hint: one of the fixed sentences, the sentence that
    quotes the risk amount and the exposure, or the sentence that quotes an
    exception. *)
Inductive hint : Type :=
| HintMessage (text : string)
| Sized (risk_amount qty : float)
| SizingError (e : exn).

Inductive verdict : Type := LooksValid | NotRecommended.

Module Engine.

Import Clock.

Local Open Scope string_scope.

(** The local variables of [main] once the prompts are answered
    ([time_setup_str] and the numeric lines are stripped by [main];
    [patterns] is the cleaned list, ["none"] alone when nothing was typed). *)
Record answers : Type := mkAnswers {
  direction : side;
  structure_1h : structure;
  market_env : environment;
  patterns : list string;
  fvg : yes_no;
  ob : yes_no;
  liq : yes_no;
  time_setup_str : string;
  entry_s : num_text;
  stop_s : num_text;
  atr_s : num_text;
  acct_s : num_text;
  risk_pct_s : num_text
}.

Definition is_yes (a : yes_no) : bool :=
  match a with Y => true | N => false end.

(** Truth value of the raw line. *)
Definition typed (t : num_text) : bool :=
  match t with Blank => false | _ => true end.

(** [float(s)]. *)
Definition to_float (t : num_text) : outcome float :=
  match t with
  | Blank => Raised (ValueError "could not convert string to float: ''")
  | Malformed e => Raised e
  | Number x => Returned x
  end.

(** [x = None], then [x = float(s)] for a non-empty [s], inside a [try]
    whose handler puts [None] back. *)
Definition optional_float (t : num_text) : option float :=
  match t with
  | Number x => Some x
  | _ => None
  end.

(** *** Reasons, word for word *)

Definition unclear_note : string :=
  "1H structure unclear — prefer structure in trade direction.".
Definition long_mismatch_note : string :=
  "1H structure is LOWER while you plan a LONG. That's a structural mismatch.".
Definition short_mismatch_note : string :=
  "1H structure is HIGHER while you plan a SHORT. That's a structural mismatch.".
Definition consolidation_note : string :=
  "Market consolidation — breakouts can be false; consider waiting for clear momentum.".
Definition no_ict_note : string :=
  "Pattern present but no ICT-level confirmation.".
Definition no_pattern_note : string :=
  "ICT level(s) present but no classic pattern; may need further price reaction.".
Definition no_confluence_note : string :=
  "No patterns or ICT levels flagged — consider waiting for clearer confluence.".
Definition outside_windows_note : string :=
  "Setup time is outside your allowed trading windows — recommended to wait.".
Definition no_stop_note : string :=
  "No stop provided and no ATR — cannot auto-calc stop.".
Definition no_entry_note : string :=
  "No entry price provided — TP/stop calculations skipped.".

Definition invalid_time_notice : string :=
  "  ➜ invalid time format; ignoring time check.".

Definition no_stop_hint : string :=
  "No stop price available to compute position size.".
Definition zero_distance_hint : string :=
  "Stop distance is zero — cannot compute size.".
Definition provide_both_hint : string :=
  "Provide both account size and risk% to get a position-sizing hint.".

(** The sentence [main] builds for a computed size. *)
Definition sized_text (risk_amount qty : float) : string :=
  "Risk $" ++ Binary64.format_2f risk_amount
  ++ ". Suggested position exposure (in price-units) = "
  ++ Binary64.format_2f qty ++ ".".

(** *** The time-of-setup check made while prompting *)

(** [time_ok] and what is printed at the prompt.  [if not tsetup] is taken
    only for [None]: a [time] object is always true. *)
Definition time_check (trading_windows : list window) (time_setup_str : string)
  : bool * list string :=
  if Text.truthy time_setup_str then
    match parse_time_str time_setup_str with
    | None => (true, [invalid_time_notice])
    | Some tsetup =>
        match trading_windows with
        | _ :: _ => (time_in_windows tsetup trading_windows, [])
        | [] => (true, [])
        end
    end
  else (true, []).

(** *** Rules 1-4: the running [score] and [reasons] *)

Record tally : Type := mkTally { score : Z; reasons : list string }.

Definition add (delta : Z) (t : tally) : tally :=
  mkTally (score t + delta) (reasons t).

Definition append (r : string) (t : tally) : tally :=
  mkTally (score t) (reasons t ++ [r]).

(** 1) structure vs direction. *)
Definition rule_structure (a : answers) (t : tally) : tally :=
  match direction a with
  | Long =>
      match structure_1h a with
      | Higher => add 2 t
      | Unclear => append unclear_note (add 0 t)
      | Lower => append long_mismatch_note t
      end
  | Short =>
      match structure_1h a with
      | Lower => add 2 t
      | Unclear => append unclear_note (add 0 t)
      | Higher => append short_mismatch_note t
      end
  end.

(** 2) market environment checks. *)
Definition rule_environment (a : answers) (t : tally) : tally :=
  match market_env a with
  | Expansion => add 1 t
  | Consolidation =>
      if Text.mem "breakout" (patterns a)
      then add (-1) (append consolidation_note t)
      else t
  | Reversal =>
      if Text.mem "engulfing" (patterns a) || is_yes (ob a)
      then add 2 t else t
  | Retracement =>
      if is_yes (fvg a) || is_yes (ob a) || is_yes (liq a)
      then add 1 t else t
  end.

Definition ict_confirm (a : answers) : bool :=
  is_yes (fvg a) || is_yes (ob a) || is_yes (liq a).

Definition classic_patterns : list string :=
  ["engulfing"; "breakout"; "pinbar"; "inside"].

Definition pattern_confirm (a : answers) : bool :=
  existsb (fun p => Text.mem p classic_patterns) (patterns a).

(** 3) pattern / ICT confirmation. *)
Definition rule_confirmation (a : answers) (t : tally) : tally :=
  if ict_confirm a && pattern_confirm a then add 3 t
  else if pattern_confirm a then append no_ict_note (add 1 t)
  else if ict_confirm a then append no_pattern_note (add 1 t)
  else append no_confluence_note t.

(** 4) time-of-day check. *)
Definition rule_timing (trading_windows : list window) (a : answers)
  (time_ok : bool) (t : tally) : tally :=
  match trading_windows with
  | _ :: _ =>
      if Text.truthy (time_setup_str a) then
        if negb time_ok then append outside_windows_note t
        else add 1 t
      else t
  | [] => t
  end.

Definition rules (trading_windows : list window) (a : answers) (time_ok : bool)
  : tally :=
  rule_timing trading_windows a time_ok
    (rule_confirmation a
       (rule_environment a
          (rule_structure a (mkTally 0 [])))).

(** 5) final pass / fail logic, over the reasons gathered so far. *)
Definition final_decision (a : answers) (t : tally) : bool :=
  if Text.contains "mismatch" (Text.lower (Text.join " " (reasons t)))
     || (match structure_1h a with Unclear => true | _ => false end)
        && negb (pattern_confirm a && ict_confirm a)
     || negb (pattern_confirm a || ict_confirm a)
  then false else true.

(** *** Stop and take-profit calculation *)

Local Open Scope float_scope.

Definition is_some {A : Type} (o : option A) : bool :=
  match o with Some _ => true | None => false end.

(** Truth value of an optional float: [None] and zero are false. *)
Definition truthy (o : option float) : bool :=
  match o with
  | Some x => Binary64.truthy x
  | None => false
  end.

(** [a or b]: [a] when it is true, else [b]. *)
Definition py_or (a b : option float) : option float :=
  if truthy a then a else b.

(** [suggested_stop if suggested_stop is not None else stop_price]. *)
Definition used_stop (suggested_stop stop_price : option float) : option float :=
  match suggested_stop with
  | Some _ => suggested_stop
  | None => stop_price
  end.

Record stops : Type := mkStops {
  suggested : option float;
  distance : option float;
  stop_notes : list reason
}.

Definition stop_stage (entry stop_price atr : option float) (d : side)
  : stops :=
  match entry with
  | Some e =>
      match stop_price with
      | None =>
          match atr with
          | Some v =>
              let '(stop, dist) := Calc.suggest_stop_from_atr e d v 1.5 in
              mkStops (Some stop) (Some dist) [AtrStopNote dist]
          | None => mkStops stop_price None [Note no_stop_note]
          end
      | Some s => mkStops stop_price (Some (Binary64.round (abs (e - s)) 5)) []
      end
  | None => mkStops stop_price None [Note no_entry_note]
  end.

Definition none_operand : exn :=
  TypeError "unsupported operand type(s) for -: 'float' and 'NoneType'".

Definition take_profits (entry stop_price suggested_stop : option float)
  (d : side) : outcome (list (float * float)) :=
  if is_some entry && truthy (py_or suggested_stop stop_price) then
    match entry, used_stop suggested_stop stop_price with
    | Some e, Some u => Returned (Calc.r_multiples e u d [1.0; 1.5; 2.0])
    | _, _ => Raised none_operand
    end
  else Returned [].

(** *** Position sizing hint *)

Definition sizing (acct_s risk_pct_s : num_text)
  (entry stop_price suggested_stop : option float) : outcome (option hint) :=
  if typed acct_s && typed risk_pct_s && is_some entry
     && (is_some stop_price || is_some suggested_stop)
  then
    acct <- to_float acct_s ;;
    risk_pct <- to_float risk_pct_s ;;
    let risk_amount := acct * (risk_pct / 100.0) in
    match used_stop suggested_stop stop_price with
    | None => Returned (Some (HintMessage no_stop_hint))
    | Some u =>
        match entry with
        | Some e =>
            let stop_dist_price := abs (e - u) in
            if stop_dist_price =? 0 then
              Returned (Some (HintMessage zero_distance_hint))
            else
              let qty := risk_amount / stop_dist_price in
              Returned (Some (Sized risk_amount qty))
        | None => Raised none_operand
        end
    end
  else if typed acct_s || typed risk_pct_s then
    Returned (Some (HintMessage provide_both_hint))
  else Returned None.

Definition position_hint (acct_s risk_pct_s : num_text)
  (entry stop_price suggested_stop : option float) : option hint :=
  try_except (sizing acct_s risk_pct_s entry stop_price suggested_stop)
             (fun e => Some (SizingError e)).

(** *** The evaluation as a whole *)

Record report : Type := mkReport {
  time_ok : bool;
  notices : list string;
  final_score : Z;
  final_reasons : list reason;
  should_trade : bool;
  suggested_stop : option float;
  stop_distance : option float;
  tps : list (float * float);
  pos_hint : option hint
}.

(** The validity summary of the report. *)
Definition validity (r : report) : verdict :=
  if should_trade r && (3 <=? final_score r)%Z then LooksValid
  else NotRecommended.

(** [entry], [stop_price] and [atr] as [main] binds them: ATR is asked for
    only when there is an entry and no stop. *)
Definition entry_of (a : answers) : option float := optional_float (entry_s a).

Definition stop_price_of (a : answers) : option float := optional_float (stop_s a).

Definition atr_of (a : answers) : option float :=
  match entry_of a, stop_price_of a with
  | Some _, None => optional_float (atr_s a)
  | _, _ => None
  end.

Definition evaluate (trading_windows : list window) (a : answers)
  : outcome report :=
  let '(ok, printed) := time_check trading_windows (time_setup_str a) in
  let entry := entry_of a in
  let stop_price := stop_price_of a in
  let atr := atr_of a in
  let t := rules trading_windows a ok in
  let decision := final_decision a t in
  let st := stop_stage entry stop_price atr (direction a) in
  targets <- take_profits entry stop_price (suggested st) (direction a) ;;
  let hint := position_hint (acct_s a) (risk_pct_s a) entry stop_price (suggested st) in
  Returned (mkReport ok printed (score t)
              (map Note (reasons t) ++ stop_notes st)
              decision (suggested st) (distance st) targets hint).

(** [main] from the trading-window prompt on: [win_input] is the stripped
    line; a blank line configures no window. *)
Definition main (win_input : string) (a : answers) : outcome report :=
  trading_windows <-
    (if Text.truthy win_input then parse_windows_input win_input
     else Returned []) ;;
  evaluate trading_windows a.

End Engine.

(* ================================================================== *)
(** ** The prompts of [main] *)

Module Prompt.

Import Clock Engine.

Local Open Scope string_scope.

(** A run of prompts over the lines typed at the terminal: a value and the
    lines not yet read, an exception that escapes, or the end of the input
    ([input] raises [EOFError]).  What the prompts print is not kept. *)
Inductive run (A : Type) : Type :=
| Done (a : A) (rest : list string)
| Crashed (e : exn)
| EndOfInput.

Arguments Done {A} a rest.
Arguments Crashed {A} e.
Arguments EndOfInput {A}.

Definition then_run {A B : Type} (c : run A) (k : A -> list string -> run B)
  : run B :=
  match c with
  | Done a rest => k a rest
  | Crashed e => Crashed e
  | EndOfInput => EndOfInput
  end.

(** A computation that reads nothing. *)
Definition lift {A : Type} (c : outcome A) (rest : list string) : run A :=
  match c with
  | Returned a => Done a rest
  | Raised e => Crashed e
  end.

(** [input(prompt).strip()]. *)
Definition input_stripped (stdin : list string) : run string :=
  match stdin with
  | [] => EndOfInput
  | line :: rest => Done (Text.strip line) rest
  end.

(** [s.lower() in [v.lower() for v in valid]]. *)
Definition accepted (valid : list string) (s : string) : bool :=
  Text.mem (Text.lower s) (map Text.lower valid).

(** [get_input(prompt, valid, default)]: the [while True] loop reads a line
    per turn; an empty [valid] stands for [None] and for the empty tuple,
    which are both false. *)
Fixpoint get_input (valid : list string) (default : option string)
  (stdin : list string) : run string :=
  match stdin with
  | [] => EndOfInput
  | line :: rest =>
      let s := Text.strip line in
      match (if Text.is_empty s then default else None) with
      | Some d => Done d rest
      | None =>
          match valid with
          | _ :: _ =>
              if accepted valid s then Done (Text.lower s) rest
              else get_input valid default rest
          | [] => Done s rest
          end
      end
  end.

(** [patterns] from the stripped line [patterns_raw]. *)
Definition clean_patterns (patterns_raw : string) : list string :=
  match map (fun p => Text.lower (Text.strip p))
            (filter (fun p => Text.truthy (Text.strip p))
                    (Text.split ","%char patterns_raw)) with
  | [] => ["none"]
  | found => found
  end.

(** The enumerated answers as [main] branches on them: each chain of
    comparisons ends in an [else]. *)
Definition side_of (s : string) : side :=
  if s =? "long" then Long else Short.

Definition structure_of (s : string) : structure :=
  if s =? "higher" then Higher
  else if s =? "unclear" then Unclear
  else Lower.

Definition environment_of (s : string) : environment :=
  if s =? "expansion" then Expansion
  else if s =? "consolidation" then Consolidation
  else if s =? "reversal" then Reversal
  else Retracement.

Definition yes_no_of (s : string) : yes_no :=
  if s =? "y" then Y else N.

Definition sides : list string := ["long"; "short"].
Definition structures : list string := ["higher"; "lower"; "unclear"].
Definition environments : list string :=
  ["expansion"; "consolidation"; "reversal"; "retracement"].
Definition yes_or_no : list string := ["y"; "n"].

Section Main.

(** The built-in [float] on text. *)
Variable float : string -> outcome float.

(** A stripped numeric line, by what [main] makes of it. *)
Definition read_number (s : string) : num_text :=
  if Text.is_empty s then Blank
  else match float s with
       | Returned x => Number x
       | Raised e => Malformed e
       end.

(** [main], prompt by prompt; [None] is the early [return] on "q". *)
Definition run_main (stdin : list string) : run (option report) :=
  then_run (input_stripped stdin) (fun win_input stdin =>
  then_run (lift (if Text.truthy win_input then parse_windows_input win_input
                  else Returned []) stdin) (fun trading_windows stdin =>
  then_run (get_input sides None stdin) (fun direction stdin =>
  then_run (get_input structures None stdin) (fun structure_1h stdin =>
  then_run (get_input environments None stdin) (fun market_env stdin =>
  then_run (input_stripped stdin) (fun patterns_raw stdin =>
  if Text.lower patterns_raw =? "q" then Done None stdin
  else
  then_run (get_input yes_or_no None stdin) (fun fvg stdin =>
  then_run (get_input yes_or_no None stdin) (fun ob stdin =>
  then_run (get_input yes_or_no None stdin) (fun liq stdin =>
  then_run (input_stripped stdin) (fun time_setup_str stdin =>
  then_run (input_stripped stdin) (fun entry_s stdin =>
  then_run (input_stripped stdin) (fun stop_s stdin =>
  then_run
    (match optional_float (read_number entry_s),
           optional_float (read_number stop_s) with
     | Some _, None => input_stripped stdin
     | _, _ => Done "" stdin
     end) (fun atr_s stdin =>
  then_run (input_stripped stdin) (fun acct_s stdin =>
  then_run (input_stripped stdin) (fun risk_pct_s stdin =>
  then_run
    (lift (evaluate trading_windows
             (mkAnswers (side_of direction) (structure_of structure_1h)
                (environment_of market_env) (clean_patterns patterns_raw)
                (yes_no_of fvg) (yes_no_of ob) (yes_no_of liq)
                time_setup_str (read_number entry_s) (read_number stop_s)
                (read_number atr_s) (read_number acct_s)
                (read_number risk_pct_s))) stdin) (fun r stdin =>
  Done (Some r) stdin)))))))))))))))).

End Main.

End Prompt.

(* ================================================================== *)
(** ** The report *)

(** The line about the stop, printed when there is an entry. *)
Inductive stop_line : Type :=
| SuggestedStopLine (stop : float) (distance : option float)
| ProvidedStopLine (stop : float) (distance : option float)
| NoStopLine.

Module Report.

Import Clock Engine.

Local Open Scope string_scope.

(** The "Time of setup" line, printed when windows are configured and a
    time was typed. *)
Definition time_line (trading_windows : list window) (time_setup_str : string)
  (time_ok : bool) : option string :=
  match trading_windows with
  | _ :: _ =>
      if Text.truthy time_setup_str then
        Some ("Time of setup: " ++ time_setup_str ++ " -> "
              ++ (if time_ok then "INSIDE" else "OUTSIDE")
              ++ " allowed windows")
      else None
  | [] => None
  end.

(** The stop line under "Entry:"; [None] when there is no entry. *)
Definition stop_line_of (entry stop_price suggested_stop stop_distance : option float)
  : option stop_line :=
  match entry with
  | Some _ =>
      Some match suggested_stop with
           | Some s => SuggestedStopLine s stop_distance
           | None =>
               match stop_price with
               | Some p => ProvidedStopLine p stop_distance
               | None => NoStopLine
               end
           end
  | None => None
  end.

End Report.

(* ================================================================== *)
(** * Vocabulary of the properties *)

Import Clock Engine.

Section Vocabulary.

Local Open Scope Z_scope.

(** The order on times of day that the description of [isWithin] uses:
    earlier hour, or same hour and no later minute. *)
Definition at_or_before (a b : time) : Prop :=
  hour a < hour b \/ (hour a = hour b /\ minute a <= minute b).

Definition after (a b : time) : Prop :=
  hour b < hour a \/ (hour a = hour b /\ minute b < minute a).

(** A window matches a time: the closed interval when [start <= end],
    the two rays around midnight when [start > end]. *)
Definition window_matches (t : time) (w : window) : Prop :=
  let '(s, e) := w in
  (at_or_before s e /\ at_or_before s t /\ at_or_before t e)
  \/ (after s e /\ (at_or_before s t \/ at_or_before t e)).

(** One window, as the loop body tests it. *)
Definition window_test (t : time) (w : window) : bool :=
  let '(s, e) := w in
  if time_le s e then time_le s t && time_le t e
  else time_ge t s || time_le t e.

(** Rule 1 found the structure against the direction. *)
Definition structural_mismatch (a : answers) : bool :=
  match direction a, structure_1h a with
  | Long, Lower | Short, Higher => true
  | _, _ => false
  end.

(** One of rule 1's two mismatch sentences is among the reasons rule 1
    records. *)
Definition mismatch_recorded (a : answers) : Prop :=
  exists r, In r (reasons (rule_structure a (mkTally 0 [])))
            /\ (r = long_mismatch_note \/ r = short_mismatch_note).

Definition is_unclear (s : structure) : bool :=
  match s with Unclear => true | _ => false end.

(** The decision as a function of what rule 1 and rule 3 found. *)
Definition decision_table (a : answers) : bool :=
  negb (structural_mismatch a
        || is_unclear (structure_1h a)
           && negb (pattern_confirm a && ict_confirm a)
        || negb (pattern_confirm a || ict_confirm a)).

(** Two sets of answers that agree on what the decision reads. *)
Definition same_read (a b : answers) : Prop :=
  direction a = direction b
  /\ structure_1h a = structure_1h b
  /\ patterns a = patterns b
  /\ fvg a = fvg b /\ ob a = ob b /\ liq a = liq b.

(** A long trade in a higher structure, consolidating, on a breakout with no
    ICT level: the decision is to trade on a score of 2. *)
Definition thin_breakout : answers :=
  mkAnswers Long Higher Consolidation ["breakout"%string] N N N ""
    Blank Blank Blank Blank Blank.

(** The same answers with another line typed at the setup-time prompt. *)
Definition with_time (a : answers) (txt : string) : answers :=
  mkAnswers (direction a) (structure_1h a) (market_env a) (patterns a)
    (fvg a) (ob a) (liq a) txt
    (entry_s a) (stop_s a) (atr_s a) (acct_s a) (risk_pct_s a).

(** What one part contributes when it is kept or dropped. *)
Definition window_of_part (p : string) : list window :=
  match Text.split "-"%char p with
  | [a; b] =>
      match parse_time_str a, parse_time_str b with
      | Some ta, Some tb => [(ta, tb)]
      | _, _ => []
      end
  | _ => []
  end.

(** A part with at most one dash. *)
Definition one_dash (p : string) : Prop :=
  (List.length (Text.split "-"%char p) <= 2)%nat.

(** A float that is neither an infinity nor a NaN. *)
Definition finite (x : float) : bool :=
  match Prim2SF x with
  | S754_zero _ | S754_finite _ _ _ => true
  | _ => false
  end.

(** The stop the calculations use: the one typed in, else the one derived
    from ATR. *)
Definition resolved_stop (a : answers) : option float :=
  used_stop
    (suggested (stop_stage (entry_of a) (stop_price_of a) (atr_of a)
                  (direction a)))
    (stop_price_of a).

End Vocabulary.

(* ================================================================== *)
(** * Vocabulary of the further properties *)

Section FurtherVocabulary.

Local Open Scope Z_scope.

(** A time of day a clock can show. *)
Definition clock_time (t : time) : Prop :=
  0 <= hour t < 24 /\ 0 <= minute t < 60.

(** A part that [parse_windows_input] cannot unpack: more than one dash. *)
Definition extra_dash (p : string) : Prop :=
  (2 < List.length (Text.split "-"%char p))%nat.

Definition too_many_values : exn :=
  ValueError "too many values to unpack (expected 2)".

(** Every rendering of the hours 0..23 and minutes 0..59 in the given
    shape parses back to the time it renders. *)
Definition renders_parse_back (render : Z -> Z -> string) : bool :=
  forallb
    (fun h =>
       forallb
         (fun m =>
            match parse_time_str (render h m) with
            | Some t => (hour t =? h) && (minute t =? m)
            | None => false
            end)
         (map Z.of_nat (seq 0 60)))
    (map Z.of_nat (seq 0 24)).

(** The tally before rule 1. *)
Definition start : tally := mkTally 0 [].

(** The direction agrees with the structure. *)
Definition aligned (a : answers) : bool :=
  match direction a, structure_1h a with
  | Long, Higher | Short, Lower => true
  | _, _ => false
  end.

(** What a rule adds to any tally is what it adds to the empty one. *)
Definition additive (rule : tally -> tally) : Prop :=
  forall t : tally,
    rule t = mkTally (score t + score (rule start))
                     (reasons t ++ reasons (rule start)).

(** A short into a reversal on an engulfing pattern at an order block,
    inside the trading window. *)
Definition full_marks : answers :=
  mkAnswers Short Lower Reversal ["engulfing"%string] N Y N "10:00"
    Blank Blank Blank Blank Blank.

(** The line the report prints for a time outside the windows. *)
Definition outside_line (a : answers) : string :=
  ("Time of setup: " ++ time_setup_str a
   ++ " -> OUTSIDE allowed windows")%string.

(** The same answers with another line typed at the ATR prompt. *)
Definition with_atr (a : answers) (t : num_text) : answers :=
  mkAnswers (direction a) (structure_1h a) (market_env a) (patterns a)
    (fvg a) (ob a) (liq a) (time_setup_str a)
    (entry_s a) (stop_s a) t (acct_s a) (risk_pct_s a).

(** Lines of ASCII text, on which [Text.strip], [Text.lower] and
    [Text.int] are the methods of Python's [str]. *)
Definition ascii_lines (lines : list string) : bool :=
  forallb Text.ascii_text lines.

End FurtherVocabulary.

(* ================================================================== *)
(** * The evaluation, whatever texts are read as times *)

(** What [main] does with a setup time depends on [parse_time_str] only
    through its answer.  Below, the body of [main] is written once more
    with the function it calls on the typed time as a parameter, so that
    the properties of the time check are stated for every such function:
    for [Clock.parse_time_str], and for Python's own reading of text
    outside ASCII. *)

Section AnyReading.

Variable parse : string -> option time.

(** [time_check], calling [parse] where the script calls
    [parse_time_str]. *)
Definition time_check_by (trading_windows : list window)
  (time_setup_str : string) : bool * list string :=
  if Text.truthy time_setup_str then
    match parse time_setup_str with
    | None => (true, [invalid_time_notice])
    | Some tsetup =>
        match trading_windows with
        | _ :: _ => (time_in_windows tsetup trading_windows, [])
        | [] => (true, [])
        end
    end
  else (true, []).

(** [evaluate], with [time_check_by] for the time check. *)
Definition evaluate_by (trading_windows : list window) (a : answers)
  : outcome report :=
  let '(ok, printed) := time_check_by trading_windows (time_setup_str a) in
  let entry := entry_of a in
  let stop_price := stop_price_of a in
  let atr := atr_of a in
  let t := rules trading_windows a ok in
  let decision := final_decision a t in
  let st := stop_stage entry stop_price atr (direction a) in
  targets <- take_profits entry stop_price (suggested st) (direction a) ;;
  let hint := position_hint (acct_s a) (risk_pct_s a) entry stop_price (suggested st) in
  Returned (mkReport ok printed (score t)
              (map Note (reasons t) ++ stop_notes st)
              decision (suggested st) (distance st) targets hint).

(** Windows are configured, a setup time was typed, and it is read as a
    time that no window holds. *)
Definition outside_windows_by (trading_windows : list window) (a : answers)
  : Prop :=
  trading_windows <> []
  /\ time_setup_str a <> ""%string
  /\ exists t, parse (time_setup_str a) = Some t
               /\ time_in_windows t trading_windows = false.

End AnyReading.

(* ================================================================== *)
(** * Properties *)

(** ** Time windows *)

Section TimeOrder.

Open Scope Z_scope.

Lemma time_le_spec (a b : time) : time_le a b = true <-> at_or_before a b.
Proof.
  unfold time_le, time_cmp, at_or_before.
  destruct (Z.compare_spec (hour a) (hour b));
    destruct (Z.compare_spec (minute a) (minute b));
    split; intros; try reflexivity; try discriminate; lia.
Qed.

Lemma time_ge_spec (a b : time) : time_ge a b = true <-> at_or_before b a.
Proof.
  unfold time_ge, time_cmp, at_or_before.
  destruct (Z.compare_spec (hour a) (hour b));
    destruct (Z.compare_spec (minute a) (minute b));
    split; intros; try reflexivity; try discriminate; lia.
Qed.

Lemma time_le_false (a b : time) : time_le a b = false <-> after a b.
Proof.
  unfold time_le, time_cmp, after.
  destruct (Z.compare_spec (hour a) (hour b));
    destruct (Z.compare_spec (minute a) (minute b));
    split; intros; try reflexivity; try discriminate; lia.
Qed.

Lemma after_not_before (a b : time) : after a b -> ~ at_or_before a b.
Proof. unfold after, at_or_before. lia. Qed.

Lemma window_test_spec (t : time) (w : window) :
  window_test t w = true <-> window_matches t w.
Proof.
  destruct w as [s e]. unfold window_test, window_matches.
  destruct (time_le s e) eqn:Hse.
  - rewrite andb_true_iff, !time_le_spec.
    apply time_le_spec in Hse. split.
    + intros [H1 H2]. left. auto.
    + intros [[_ H] | [H _]]; [exact H |].
      exfalso. exact (after_not_before _ _ H Hse).
  - rewrite orb_true_iff, time_ge_spec, time_le_spec.
    apply time_le_false in Hse. split.
    + intros H. right. auto.
    + intros [[H _] | [_ H]]; [| exact H].
      exfalso. exact (after_not_before _ _ Hse H).
Qed.

Lemma time_in_windows_existsb (t : time) (windows : list window) :
  time_in_windows t windows = existsb (window_test t) windows.
Proof.
  induction windows as [| [s e] rest IH]; simpl; [reflexivity |].
  rewrite IH.
  destruct (time_le s e);
    [destruct (time_le s t && time_le t e) | destruct (time_ge t s || time_le t e)];
    reflexivity.
Qed.

End TimeOrder.

(** C3: [time_in_windows] answers true exactly when some window matches the
    time, a window with [start <= end] matching the closed interval and a
    window with [start > end] matching from [start] on or up to [end]; so
    (09:30, 11:30) holds 09:30 and 11:30 but not 11:31, and (22:00, 02:00)
    holds 23:30 and 01:00 but not 12:00. *)
Theorem time_in_windows_matches :
  (forall (t : time) (windows : list window),
      time_in_windows t windows = true <-> Exists (window_matches t) windows)
  /\ (let morning := [(mkTime 9 30, mkTime 11 30)] in
      time_in_windows (mkTime 9 30) morning = true
      /\ time_in_windows (mkTime 11 30) morning = true
      /\ time_in_windows (mkTime 11 31) morning = false)
  /\ (let overnight := [(mkTime 22 0, mkTime 2 0)] in
      time_in_windows (mkTime 23 30) overnight = true
      /\ time_in_windows (mkTime 1 0) overnight = true
      /\ time_in_windows (mkTime 12 0) overnight = false).
Proof.
  split; [| split; repeat split; reflexivity].
  intros t windows. rewrite time_in_windows_existsb, existsb_exists, Exists_exists.
  split; intros [w [Hin Hw]]; exists w; split; auto; now apply window_test_spec.
Qed.

(** ** The evaluation always produces a report *)

Lemma used_stop_none (suggested_stop stop_price : option float) :
  used_stop suggested_stop stop_price = None ->
  suggested_stop = None /\ stop_price = None.
Proof.
  destruct suggested_stop, stop_price; simpl; intros H;
    try discriminate; auto.
Qed.

(** The unpacking of [None] in the take-profit step is unreachable. *)
Lemma take_profits_returns (entry stop_price suggested_stop : option float)
  (d : side) :
  exists targets, take_profits entry stop_price suggested_stop d = Returned targets.
Proof.
  unfold take_profits.
  destruct entry as [e |]; simpl; [| eauto].
  destruct (truthy (py_or suggested_stop stop_price)) eqn:Ht; [| eauto].
  destruct (used_stop suggested_stop stop_price) as [u |] eqn:Hu; [eauto |].
  apply used_stop_none in Hu. destruct Hu; subst.
  discriminate Ht.
Qed.

(** [evaluate] written out: its only partial step is [take_profits]. *)
Lemma evaluate_report (trading_windows : list window) (a : answers) :
  exists targets,
    take_profits (entry_of a) (stop_price_of a)
      (suggested (stop_stage (entry_of a) (stop_price_of a) (atr_of a)
                    (direction a)))
      (direction a) = Returned targets
    /\ evaluate trading_windows a =
       let ok := fst (time_check trading_windows (time_setup_str a)) in
       let t := rules trading_windows a ok in
       let st := stop_stage (entry_of a) (stop_price_of a) (atr_of a)
                   (direction a) in
       Returned
         (mkReport ok (snd (time_check trading_windows (time_setup_str a)))
            (score t) (map Note (reasons t) ++ stop_notes st)
            (final_decision a t) (suggested st) (distance st) targets
            (position_hint (acct_s a) (risk_pct_s a) (entry_of a)
               (stop_price_of a) (suggested st))).
Proof.
  destruct (take_profits_returns (entry_of a) (stop_price_of a)
              (suggested (stop_stage (entry_of a) (stop_price_of a) (atr_of a)
                            (direction a)))
              (direction a)) as [targets Ht].
  exists targets. split; [exact Ht |].
  unfold evaluate.
  destruct (time_check trading_windows (time_setup_str a)) as [ok printed].
  simpl. rewrite Ht. reflexivity.
Qed.

Lemma evaluate_returns (trading_windows : list window) (a : answers) :
  exists r, evaluate trading_windows a = Returned r.
Proof.
  destruct (evaluate_report trading_windows a) as [targets [_ H]].
  rewrite H. eauto.
Qed.

(** ** The worked scenario *)

(** C2: for a long trade with higher structure in an expansion, breakout as
    the only pattern, a fair value gap and neither order block nor
    liquidity, with no trading window and no setup time, the score is
    2 (structure) + 1 (environment) + 3 (pattern and ICT confirmation) = 6,
    the decision is to trade, and the report's verdict is the valid one
    (decision true and score at least 3); the price and sizing lines do not
    matter. *)
Theorem breakout_long_scenario :
  forall entry_s stop_s atr_s acct_s risk_pct_s : num_text,
    let a := mkAnswers Long Higher Expansion ["breakout"%string] Y N N ""
               entry_s stop_s atr_s acct_s risk_pct_s in
    let start := mkTally 0 [] in
    score (rule_structure a start) = 2%Z
    /\ score (rule_environment a start) = 1%Z
    /\ score (rule_confirmation a start) = 3%Z
    /\ score (rule_timing [] a true start) = 0%Z
    /\ exists r,
        main "" a = Returned r
        /\ final_score r = 6%Z
        /\ should_trade r = true
        /\ validity r = LooksValid.
Proof.
  intros e s t ac rp a start.
  repeat (split; [reflexivity |]).
  unfold main. simpl.
  destruct (evaluate_report [] a) as [targets [_ H]].
  rewrite H. eexists. split; [reflexivity |].
  repeat split; reflexivity.
Qed.

(** ** The rules engine *)

Section Rules.

Open Scope Z_scope.
Open Scope string_scope.

Ltac rule_cases :=
  unfold rules, rule_timing, rule_confirmation, rule_environment, rule_structure;
  repeat match goal with
         | |- context [match ?x with Long => _ | Short => _ end] => destruct x
         | |- context [match ?x with Higher => _ | Lower => _ | Unclear => _ end] =>
             destruct x
         | |- context [match ?x with Expansion => _ | Consolidation => _
                                | Reversal => _ | Retracement => _ end] => destruct x
         | |- context [match ?x with [] => _ | _ :: _ => _ end] => destruct x
         | |- context [if ?c then _ else _] => destruct c eqn:?
         end.

Lemma structural_mismatch_spec (a : answers) :
  structural_mismatch a = true <-> mismatch_recorded a.
Proof.
  unfold structural_mismatch, mismatch_recorded, rule_structure.
  destruct (direction a), (structure_1h a); simpl; split;
    try discriminate; try reflexivity;
    try (intros _; eexists; split; [left; reflexivity | auto; fail]).
  all: intros [r [Hin Hr]]; simpl in Hin;
    repeat (destruct Hin as [Hin | Hin]; [subst r |]); try contradiction;
    destruct Hr as [Hr | Hr]; discriminate Hr.
Qed.

(** The word the final rule looks for occurs in the joined, lower-cased
    reasons of rules 1-4 exactly when rule 1 wrote a mismatch sentence: no
    other sentence contains it, and it cannot straddle the joining space. *)
Lemma mismatch_scan (trading_windows : list window) (a : answers) (ok : bool) :
  Text.contains "mismatch"
    (Text.lower (Text.join " " (reasons (rules trading_windows a ok))))
  = structural_mismatch a.
Proof.
  unfold structural_mismatch.
  rule_cases; vm_compute; reflexivity.
Qed.

Lemma final_decision_table (trading_windows : list window) (a : answers) (ok : bool) :
  final_decision a (rules trading_windows a ok) = decision_table a.
Proof.
  unfold final_decision, decision_table.
  rewrite mismatch_scan.
  destruct (structural_mismatch a), (structure_1h a),
    (pattern_confirm a), (ict_confirm a); reflexivity.
Qed.

(** "breakout" is one of the classic patterns. *)
Lemma breakout_confirms (a : answers) :
  Text.mem "breakout" (patterns a) = true -> pattern_confirm a = true.
Proof.
  unfold pattern_confirm, Text.mem.
  induction (patterns a) as [| p ps IH]; cbn [existsb]; [discriminate |].
  intros H. apply orb_true_iff in H. destruct H as [H | H].
  - apply String.eqb_eq in H. subst p. reflexivity.
  - rewrite (IH H). apply orb_true_r.
Qed.

(** The score is never negative: the one rule that subtracts does so only
    when "breakout" is present, and then rule 3 adds at least one. *)
Lemma score_nonnegative (trading_windows : list window) (a : answers) (ok : bool) :
  0 <= score (rules trading_windows a ok).
Proof.
  pose proof (breakout_confirms a) as Hb.
  rule_cases; simpl; try lia;
    specialize (Hb eq_refl); congruence.
Qed.

(** Whenever the decision is to trade the score is at least 2. *)
Lemma score_when_trading (trading_windows : list window) (a : answers) (ok : bool) :
  final_decision a (rules trading_windows a ok) = true ->
  2 <= score (rules trading_windows a ok).
Proof.
  rewrite final_decision_table. unfold decision_table, structural_mismatch.
  pose proof (breakout_confirms a) as Hb.
  unfold rules, rule_confirmation.
  destruct (pattern_confirm a), (ict_confirm a); cbn [andb orb negb];
    rule_cases; cbn; intros Hd; try lia; try discriminate Hd;
    specialize (Hb eq_refl); discriminate Hb.
Qed.

End Rules.

Lemma should_trade_table (trading_windows : list window) (a : answers) (r : report) :
  evaluate trading_windows a = Returned r -> should_trade r = decision_table a.
Proof.
  destruct (evaluate_report trading_windows a) as [targets [_ H]].
  rewrite H. intros E. injection E as <-. simpl.
  apply final_decision_table.
Qed.

Lemma final_score_rules (trading_windows : list window) (a : answers) (r : report) :
  evaluate trading_windows a = Returned r ->
  final_score r = score (rules trading_windows a (time_ok r))
  /\ should_trade r = final_decision a (rules trading_windows a (time_ok r)).
Proof.
  destruct (evaluate_report trading_windows a) as [targets [_ H]].
  rewrite H. intros E. injection E as <-. simpl. auto.
Qed.

(** C1: the evaluation returns a report whose decision is false exactly when
    rule 1 recorded a structural mismatch, or the structure is unclear and
    pattern and ICT confirmation do not both hold, or neither holds; in
    every other case the decision is true. *)
Theorem should_trade_rule :
  forall (trading_windows : list window) (a : answers),
  exists r,
    evaluate trading_windows a = Returned r
    /\ (should_trade r = false <->
        mismatch_recorded a
        \/ (structure_1h a = Unclear
            /\ ~ (pattern_confirm a = true /\ ict_confirm a = true))
        \/ ~ (pattern_confirm a = true \/ ict_confirm a = true))
    /\ (should_trade r = true <->
        ~ (mismatch_recorded a
           \/ (structure_1h a = Unclear
               /\ ~ (pattern_confirm a = true /\ ict_confirm a = true))
           \/ ~ (pattern_confirm a = true \/ ict_confirm a = true))).
Proof.
  intros ws a.
  destruct (evaluate_returns ws a) as [r Hr]. exists r.
  split; [exact Hr |].
  rewrite (should_trade_table _ _ _ Hr). unfold decision_table.
  rewrite <- structural_mismatch_spec.
  destruct (structural_mismatch a), (structure_1h a),
    (pattern_confirm a), (ict_confirm a); simpl;
    split; split; intros H; try reflexivity; try discriminate H;
    try (exfalso; apply H; clear H); intuition congruence.
Qed.

Lemma decision_table_same_read (a b : answers) :
  same_read a b -> decision_table a = decision_table b.
Proof.
  intros (Hd & Hs & Hp & Hf & Ho & Hl).
  unfold decision_table, structural_mismatch, pattern_confirm, ict_confirm.
  rewrite Hd, Hs, Hp, Hf, Ho, Hl. reflexivity.
Qed.

(** C10, as the code has it: answers that agree on direction, structure,
    patterns and the three ICT flags get the same decision, whatever the
    environment, setup time, windows and numeric lines; the decision can be
    to trade on a score below 3, but never on a score below 2, and the
    score is never negative. *)
Theorem decision_reads_only_structure_and_confirmation :
  (forall (windows windows' : list window) (a a' : answers),
      same_read a a' ->
      exists r r',
        evaluate windows a = Returned r
        /\ evaluate windows' a' = Returned r'
        /\ should_trade r = should_trade r')
  /\ (exists r,
        evaluate [] thin_breakout = Returned r
        /\ should_trade r = true /\ (final_score r < 3)%Z)
  /\ (forall (windows : list window) (a : answers) (r : report),
        evaluate windows a = Returned r ->
        should_trade r = true -> (2 <= final_score r)%Z)
  /\ (forall (windows : list window) (a : answers) (r : report),
        evaluate windows a = Returned r -> (0 <= final_score r)%Z).
Proof.
  split; [| split; [| split]].
  - intros ws ws' a a' Hsame.
    destruct (evaluate_returns ws a) as [r Hr].
    destruct (evaluate_returns ws' a') as [r' Hr'].
    exists r, r'. repeat split; auto.
    rewrite (should_trade_table _ _ _ Hr), (should_trade_table _ _ _ Hr').
    now apply decision_table_same_read.
  - eexists. split; [reflexivity |]. split; [reflexivity |].
    vm_compute. reflexivity.
  - intros ws a r Hr Ht.
    destruct (final_score_rules _ _ _ Hr) as [Hs Hd].
    rewrite Hs. apply score_when_trading. now rewrite <- Hd.
  - intros ws a r Hr.
    destruct (final_score_rules _ _ _ Hr) as [Hs _].
    rewrite Hs. apply score_nonnegative.
Qed.

(** C10, as stated, also promises a decision to trade on a negative score;
    no answers produce one. *)
Lemma no_trade_on_negative_score :
  ~ (exists (windows : list window) (a : answers) (r : report),
        evaluate windows a = Returned r
        /\ should_trade r = true /\ (final_score r < 0)%Z).
Proof.
  intros (ws & a & r & Hr & Ht & Hneg).
  destruct (final_score_rules _ _ _ Hr) as [Hs _].
  pose proof (score_nonnegative ws a (time_ok r)) as H0.
  rewrite <- Hs in H0. lia.
Qed.

(** Two evaluations that differ in everything the decision does not read. *)
Lemma decision_reads_only_structure_and_confirmation_holds :
  let a := mkAnswers Long Higher Expansion ["breakout"%string] Y N N ""
             Blank Blank Blank Blank Blank in
  let a' := mkAnswers Long Higher Consolidation ["breakout"%string] Y N N "12:00"
              (Number 1.1%float) (Number 1.095%float) Blank
              (Number 10000%float) (Number 1%float) in
  same_read a a'
  /\ exists r r',
      evaluate [] a = Returned r
      /\ evaluate [(mkTime 9 30, mkTime 11 30)] a' = Returned r'
      /\ should_trade r = should_trade r'.
Proof.
  split.
  - repeat split; reflexivity.
  - apply (proj1 decision_reads_only_structure_and_confirmation).
    repeat split; reflexivity.
Defined.

(** ** The setup time *)

(** Rules 1-3 and the final rule do not read the setup time. *)
Lemma rules_before_timing_with_time (a : answers) (txt : string) (t : tally) :
  rule_confirmation (with_time a txt)
    (rule_environment (with_time a txt) (rule_structure (with_time a txt) t))
  = rule_confirmation a (rule_environment a (rule_structure a t)).
Proof. reflexivity. Qed.

Lemma final_decision_with_time (a : answers) (txt : string) (t : tally) :
  final_decision (with_time a txt) t = final_decision a t.
Proof. reflexivity. Qed.


Lemma time_check_no_windows (txt : string) : fst (time_check [] txt) = true.
Proof.
  unfold time_check.
  destruct (Text.truthy txt); [| reflexivity].
  destruct (parse_time_str txt); reflexivity.
Qed.

(** With [Clock.parse_time_str] for the reading of the time,
    [evaluate_by] is [evaluate]. *)
Lemma evaluate_by_parse_time_str (trading_windows : list window) (a : answers) :
  evaluate_by parse_time_str trading_windows a = evaluate trading_windows a.
Proof. reflexivity. Qed.

(** [evaluate_by] written out, as [evaluate] is in [evaluate_report]. *)
Lemma evaluate_by_report (parse : string -> option time)
  (trading_windows : list window) (a : answers) :
  exists targets,
    take_profits (entry_of a) (stop_price_of a)
      (suggested (stop_stage (entry_of a) (stop_price_of a) (atr_of a)
                    (direction a)))
      (direction a) = Returned targets
    /\ evaluate_by parse trading_windows a =
       let ok := fst (time_check_by parse trading_windows (time_setup_str a)) in
       let t := rules trading_windows a ok in
       let st := stop_stage (entry_of a) (stop_price_of a) (atr_of a)
                   (direction a) in
       Returned
         (mkReport ok
            (snd (time_check_by parse trading_windows (time_setup_str a)))
            (score t) (map Note (reasons t) ++ stop_notes st)
            (final_decision a t) (suggested st) (distance st) targets
            (position_hint (acct_s a) (risk_pct_s a) (entry_of a)
               (stop_price_of a) (suggested st))).
Proof.
  destruct (take_profits_returns (entry_of a) (stop_price_of a)
              (suggested (stop_stage (entry_of a) (stop_price_of a) (atr_of a)
                            (direction a)))
              (direction a)) as [targets Ht].
  exists targets. split; [exact Ht |].
  unfold evaluate_by.
  destruct (time_check_by parse trading_windows (time_setup_str a))
    as [ok printed].
  simpl. rewrite Ht. reflexivity.
Qed.


Lemma outside_note_not_before_timing (a : answers) :
  ~ In outside_windows_note
      (reasons (rule_confirmation a
                  (rule_environment a (rule_structure a (mkTally 0 []))))).
Proof.
  unfold rule_confirmation, rule_environment, rule_structure.
  destruct (direction a), (structure_1h a), (market_env a);
    repeat match goal with
           | |- context [if ?c then _ else _] => destruct c
           end;
    cbn; intros H;
    repeat (destruct H as [H | H]; [discriminate H |]); exact H.
Qed.

Lemma outside_note_not_in_stop_notes (entry stop_price atr : option float)
  (d : side) :
  ~ In (Note outside_windows_note) (stop_notes (stop_stage entry stop_price atr d)).
Proof.
  unfold stop_stage.
  destruct entry as [e |]; [destruct stop_price as [s |]; [| destruct atr as [v |]] |];
    cbn; intros H;
    repeat (destruct H as [H | H]; [discriminate H |]); exact H.
Qed.

(** C7: with no trading window configured the time check is taken as
    passed whatever is typed at the setup-time prompt: [time_ok] is true,
    rule 4 leaves the tally alone, the "outside your allowed trading
    windows" reason is never recorded, and score, reasons and decision are
    the same for every setup time. *)
Theorem no_windows_no_time_restriction :
  forall (a : answers) (txt : string),
    (forall (ok : bool) (t : tally), rule_timing [] a ok t = t)
    /\ exists r r',
        evaluate [] a = Returned r
        /\ evaluate [] (with_time a txt) = Returned r'
        /\ time_ok r = true /\ time_ok r' = true
        /\ final_score r' = final_score r
        /\ final_reasons r' = final_reasons r
        /\ should_trade r' = should_trade r
        /\ ~ In (Note outside_windows_note) (final_reasons r).
Proof.
  intros a txt. split; [reflexivity |].
  destruct (evaluate_report [] a) as [targets [_ H]].
  destruct (evaluate_report [] (with_time a txt)) as [targets' [_ H']].
  rewrite H, H'. do 2 eexists.
  split; [reflexivity |]. split; [reflexivity |]. cbn.
  repeat split; try apply time_check_no_windows.
  intros Hin. apply in_app_or in Hin. destruct Hin as [Hin | Hin].
  - apply in_map_iff in Hin. destruct Hin as [n [Hn Hin]].
    injection Hn as ->.
    exact (outside_note_not_before_timing a Hin).
  - exact (outside_note_not_in_stop_notes _ _ _ _ Hin).
Qed.




(** ** Trading-window text *)

Section WindowText.

Open Scope string_scope.

Lemma split_nonempty (sep : ascii) (s : string) : Text.split sep s <> [].
Proof.
  destruct s as [| c rest]; simpl; [discriminate |].
  destruct (Ascii.eqb c sep); [discriminate |].
  destruct (Text.split sep rest); discriminate.
Qed.

Lemma contains_dash_cons (c : ascii) (rest : string) :
  Text.contains "-" (String c rest)
  = Ascii.eqb c "-"%char || Text.contains "-" rest.
Proof.
  cbn [Text.contains String.prefix].
  destruct (ascii_dec "-"%char c) as [<- | Hne].
  - destruct rest; reflexivity.
  - assert (Ascii.eqb c "-"%char = false) as ->
        by (apply Ascii.eqb_neq; congruence).
    reflexivity.
Qed.

(** A part that contains a dash splits into at least two fields. *)
Lemma split_on_dash (p : string) :
  Text.contains "-" p = true -> (2 <= List.length (Text.split "-"%char p))%nat.
Proof.
  induction p as [| c rest IH]; [discriminate |].
  rewrite contains_dash_cons.
  cbn [Text.split]. destruct (Ascii.eqb c "-"%char) eqn:Hc.
  - intros _. pose proof (split_nonempty "-"%char rest) as Hne.
    destruct (Text.split "-"%char rest); [contradiction | simpl; lia].
  - intros Hrest. specialize (IH Hrest).
    destruct (Text.split "-"%char rest); simpl in *; lia.
Qed.

(** A part without a dash is a single field. *)
Lemma no_dash_one_field (p a b : string) :
  Text.contains "-" p = false -> Text.split "-"%char p <> [a; b].
Proof.
  revert a b. induction p as [| c rest IH]; intros a b Hdash Hs;
    [discriminate Hs |].
  rewrite contains_dash_cons in Hdash. apply orb_false_iff in Hdash.
  destruct Hdash as [Hc Hrest].
  cbn [Text.split] in Hs. rewrite Hc in Hs.
  destruct (Text.split "-"%char rest) as [| f [| g [| h more]]] eqn:Hs';
    try discriminate Hs.
  exact (IH f g Hrest eq_refl).
Qed.

(** As long as no part has a second dash the loop keeps the well-formed
    ranges, in order, and drops the others. *)
Lemma parse_parts_tolerant (parts : list string) (windows : list window) :
  Forall one_dash parts ->
  parse_parts parts windows
  = Returned (windows ++ flat_map window_of_part parts)%list.
Proof.
  intros Hall. revert windows.
  induction Hall as [| p rest Hp _ IH]; intros windows; cbn [parse_parts flat_map].
  - now rewrite app_nil_r.
  - unfold window_of_part, one_dash in *.
    destruct (Text.contains "-" p) eqn:Hdash; cbn [negb].
    + apply split_on_dash in Hdash.
      destruct (Text.split "-"%char p) as [| a [| b [| c more]]];
        simpl in Hdash, Hp; try lia.
      destruct (parse_time_str a), (parse_time_str b);
        rewrite IH; cbn [app]; try reflexivity.
      now rewrite <- app_assoc.
    + rewrite IH.
      destruct (Text.split "-"%char p) as [| a [| b [| c more]]] eqn:Hs;
        try reflexivity; simpl in Hp; try lia.
      exfalso. exact (no_dash_one_field p a b Hdash Hs).
Qed.

End WindowText.

(** C4 fails on a part with two dashes: the unpacking in
    [parse_windows_input] raises [ValueError], so the parse as a whole
    fails, the well-formed ranges beside it are lost and [main] stops;
    parts without a dash or with a bad time are dropped as promised. *)
Theorem second_dash_aborts_window_parsing :
  parse_windows_input "09:30-11:30-12:00"
  = Raised (ValueError "too many values to unpack (expected 2)")
  /\ parse_windows_input "09:30-11:30,13:00-15:00-16:00"
     = Raised (ValueError "too many values to unpack (expected 2)")
  /\ (forall a : answers,
         main "09:30-11:30-12:00" a
         = Raised (ValueError "too many values to unpack (expected 2)"))
  /\ parse_windows_input "09:30-11:30, lunch ,25:00-26:00,13:00-15:00"
     = Returned [(mkTime 9 30, mkTime 11 30); (mkTime 13 0, mkTime 15 0)].
Proof.
  repeat split; reflexivity.
Qed.

(** ** Targets *)

Section Targets.

Open Scope float_scope.

Lemma r_loop_map (entry stop_dist : float) (d : side)
  (r_list : list float) (tps : list (float * float)) :
  Calc.r_loop entry stop_dist d r_list tps
  = tps ++ map (fun r => (r, Calc.target entry stop_dist d r)) r_list.
Proof.
  revert tps. induction r_list as [| r rest IH]; intros tps; simpl.
  - now rewrite app_nil_r.
  - rewrite IH, <- app_assoc. reflexivity.
Qed.

Lemma r_multiples_map (entry stop : float) (d : side) (r_list : list float) :
  Calc.r_multiples entry stop d r_list
  = map (fun r => (r, Calc.target entry (abs (entry - stop)) d r)) r_list.
Proof. unfold Calc.r_multiples. now rewrite r_loop_map. Qed.

(** [x == 0.0] holds for the two zeros only. *)
Lemma eqb_zero (x : float) :
  (x =? 0) = true -> exists s, Prim2SF x = S754_zero s.
Proof.
  rewrite eqb_spec. change (Prim2SF 0) with (S754_zero false).
  destruct (Prim2SF x) as [s | s | | s m e]; cbn; intros H;
    try discriminate H; eauto; destruct s; discriminate H.
Qed.

Lemma abs_zero (x : float) :
  (abs x =? 0) = true -> exists s, Prim2SF x = S754_zero s.
Proof.
  intros H. apply eqb_zero in H. destruct H as [s H].
  rewrite abs_spec in H.
  destruct (Prim2SF x) as [s' | s' | | s' m e]; try discriminate H; eauto.
Qed.

(** Zero distance times a finite multiple is a zero. *)
Lemma zero_distance_times (x r : float) :
  (abs x =? 0) = true -> finite r = true ->
  exists s, Prim2SF (abs x * r) = S754_zero s.
Proof.
  intros Hx Hr. destruct (abs_zero x Hx) as [s Hs].
  rewrite mul_spec, abs_spec, Hs. unfold finite in Hr.
  destruct (Prim2SF r) as [sr | sr | | sr m e]; try discriminate Hr;
    cbn; eauto.
Qed.

(** A price that differs from its stop by zero is a finite number. *)
Lemma zero_distance_entry (entry stop : float) :
  (abs (entry - stop) =? 0) = true -> (entry =? 0) = false ->
  exists s m e, Prim2SF entry = S754_finite s m e.
Proof.
  intros Hd Hnz. destruct (abs_zero _ Hd) as [s Hs].
  rewrite sub_spec in Hs. rewrite eqb_spec in Hnz.
  change (Prim2SF 0) with (S754_zero false) in Hnz.
  destruct (Prim2SF entry) as [se | se | | se m e]; eauto.
  - discriminate Hnz.
  - exfalso. destruct (Prim2SF stop) as [ss | ss | | ss ms es];
      destruct se; try destruct ss; discriminate Hs.
  - discriminate Hs.
Qed.

(** Adding or subtracting a zero leaves a non-zero finite number as it is. *)
Lemma add_zero_finite (x z : float) (s sz : bool) (m : positive) (e : Z) :
  Prim2SF x = S754_finite s m e -> Prim2SF z = S754_zero sz ->
  x + z = x /\ x - z = x.
Proof.
  intros Hx Hz. split; apply Prim2SF_inj.
  - rewrite add_spec, Hx, Hz. reflexivity.
  - rewrite sub_spec, Hx, Hz. reflexivity.
Qed.

Lemma target_zero_distance (entry stop r : float) (d : side) :
  (abs (entry - stop) =? 0) = true -> (entry =? 0) = false -> finite r = true ->
  Calc.target entry (abs (entry - stop)) d r = Binary64.round entry 5.
Proof.
  intros Hd Hnz Hr.
  destruct (zero_distance_entry _ _ Hd Hnz) as (s & m & e & He).
  destruct (zero_distance_times _ r Hd Hr) as [sz Hz].
  destruct (add_zero_finite _ _ _ _ _ _ He Hz) as [Hadd Hsub].
  unfold Calc.target. destruct d; [rewrite Hadd | rewrite Hsub]; reflexivity.
Qed.

End Targets.

(** C9, as the code has it: [r_multiples] returns one pair per multiple, in
    the order given, whose price is entry plus (long) or minus (short) the
    stop distance times the multiple, rounded to five decimals; entry
    1.1000, stop 1.0950, long, multiples 1.0 and 2.0 give 1.105 and 1.11.
    With a zero stop distance the list is still produced, and for a
    non-zero entry and finite multiples every price is the entry rounded
    to five decimals. *)
Theorem r_multiples_rounded :
  (forall (entry stop : float) (d : side) (r_list : list float),
      Calc.r_multiples entry stop d r_list
      = map (fun r =>
               (r, Binary64.round
                     match d with
                     | Long => entry + abs (entry - stop) * r
                     | Short => entry - abs (entry - stop) * r
                     end 5))
            r_list)%float
  /\ Calc.r_multiples 1.1 1.095 Long [1.0; 2.0]%float
     = [(1.0, 1.105); (2.0, 1.11)]%float
  /\ (forall (entry stop : float) (d : side) (r_list : list float),
         (abs (entry - stop) =? 0)%float = true ->
         (entry =? 0)%float = false ->
         forallb finite r_list = true ->
         Calc.r_multiples entry stop d r_list
         = map (fun r => (r, Binary64.round entry 5)) r_list).
Proof.
  split; [| split].
  - intros entry stop d r_list. rewrite r_multiples_map.
    apply map_ext. intros r. unfold Calc.target. destruct d; reflexivity.
  - vm_compute. reflexivity.
  - intros entry stop d r_list Hd Hnz Hfin. rewrite r_multiples_map.
    apply map_ext_in. intros r Hin. f_equal.
    apply target_zero_distance; auto.
    rewrite forallb_forall in Hfin. auto.
Qed.

(** Entry 1.25 with the stop at the entry: the three targets of [main]. *)
Lemma r_multiples_rounded_holds :
  (abs (1.25 - 1.25) =? 0)%float = true
  /\ (1.25 =? 0)%float = false
  /\ forallb finite [1.0; 1.5; 2.0]%float = true
  /\ Calc.r_multiples 1.25 1.25 Short [1.0; 1.5; 2.0]%float
     = map (fun r => (r, Binary64.round 1.25 5)) [1.0; 1.5; 2.0]%float.
Proof.
  repeat (split; [reflexivity |]).
  apply (proj2 (proj2 r_multiples_rounded)); reflexivity.
Defined.

(** C9, as stated, leaves the rounding out.  Entry 1.000001 with the stop
    at 1.0 and multiple 1.0 gives the price 1.0, which is not
    entry + |entry - stop| * 1.0; and entry 1.234567 with the stop at the
    entry gives 1.23457, which is not the entry. *)
Lemma r_multiples_price_not_exact :
  (Calc.r_multiples 1.000001 1.0 Long [1.0]
   = [(1.0, 1.0)]
   /\ (1.0 =? 1.000001 + abs (1.000001 - 1.0) * 1.0) = false
   /\ Calc.r_multiples 1.234567 1.234567 Long [1.0]
      = [(1.0, 1.23457)]
   /\ (abs (1.234567 - 1.234567) =? 0) = true
   /\ (1.23457 =? 1.234567) = false)%float.
Proof.
  repeat split; vm_compute; reflexivity.
Qed.

(** ** Take-profit levels and the resolved stop *)

Section ResolvedStop.

Open Scope float_scope.

Lemma r_multiples_of_main_nonempty (e u : float) (d : side) :
  Calc.r_multiples e u d [1.0; 1.5; 2.0] <> [].
Proof. rewrite r_multiples_map. discriminate. Qed.

(** What the test [(suggested_stop or stop_price)] lets through. *)
Lemma take_profits_listed (entry stop_price atr : option float) (d : side)
  (targets : list (float * float)) :
  take_profits entry stop_price
    (suggested (stop_stage entry stop_price atr d)) d = Returned targets ->
  targets <> [] <->
  exists e u,
    entry = Some e
    /\ used_stop (suggested (stop_stage entry stop_price atr d)) stop_price = Some u
    /\ (u =? 0) = false.
Proof.
  unfold take_profits, stop_stage, Calc.suggest_stop_from_atr, py_or, used_stop,
    truthy, Binary64.truthy.
  destruct entry as [e |];
    [destruct stop_price as [s |]; [| destruct atr as [v |]] |];
    cbn [suggested is_some andb].
  - destruct (s =? 0) eqn:Hz; cbn [negb]; rewrite ?Hz; cbn [negb];
      intros Htp; injection Htp as <-; split.
    + intros Hne. now contradiction Hne.
    + intros (e' & u & _ & Hu & Hnz). congruence.
    + intros _. eauto.
    + intros _. apply r_multiples_of_main_nonempty.
  - match goal with
    | |- context [negb (?x =? 0)] => destruct (x =? 0) eqn:Hz
    end; cbn [negb]; rewrite ?Hz; cbn [negb];
      intros Htp; injection Htp as <-; split.
    + intros Hne. now contradiction Hne.
    + intros (e' & u & _ & Hu & Hnz). congruence.
    + intros _. eauto.
    + intros _. apply r_multiples_of_main_nonempty.
  - intros Htp. injection Htp as <-. split.
    + intros Hne. now contradiction Hne.
    + intros (e' & u & _ & Hu & _). discriminate Hu.
  - intros Htp. injection Htp as <-. split.
    + intros Hne. now contradiction Hne.
    + intros (e' & u & He & _). discriminate He.
Qed.

(** Targets are listed exactly when there is an entry and a resolved stop
    that is not zero. *)
Lemma targets_listed_iff (trading_windows : list window) (a : answers) (r : report) :
  evaluate trading_windows a = Returned r ->
  tps r <> [] <->
  exists e u, entry_of a = Some e /\ resolved_stop a = Some u /\ (u =? 0) = false.
Proof.
  destruct (evaluate_report trading_windows a) as [targets [Htp H]].
  rewrite H. intros E. injection E as <-. cbn [tps].
  exact (take_profits_listed _ _ _ _ _ Htp).
Qed.

End ResolvedStop.

(** C5 fails on a stop of zero: with entry 1.1 and the stop typed as 0 the
    entry and the resolved stop both exist (the stop distance and the
    position size are computed from them), yet no take-profit is listed,
    because the guard tests the truth value of the stop where the lines
    around it test [is not None]; the same happens to a stop derived from
    ATR that rounds to zero. *)
Theorem zero_stop_lists_no_targets :
  (let a := mkAnswers Long Higher Expansion ["breakout"%string] Y N N ""
              (Number 1.1) (Number 0) Blank (Number 10000) (Number 1) in
   entry_of a = Some 1.1%float
   /\ resolved_stop a = Some 0%float
   /\ exists r,
       main "" a = Returned r
       /\ suggested_stop r = Some 0%float
       /\ stop_distance r = Some 1.1%float
       /\ (exists risk_amount qty, pos_hint r = Some (Sized risk_amount qty))
       /\ tps r = [])
  /\ (let a := mkAnswers Long Higher Expansion ["breakout"%string] Y N N ""
                 (Number 0.003) Blank (Number 0.002) Blank Blank in
      entry_of a = Some 0.003%float
      /\ resolved_stop a = Some 0%float
      /\ exists r, main "" a = Returned r /\ tps r = []).
Proof.
  split.
  - split; [reflexivity |]. split; [reflexivity |].
    eexists. split; [reflexivity |].
    split; [reflexivity |]. split; [reflexivity |].
    split; [do 2 eexists; reflexivity | reflexivity].
  - split; [reflexivity |]. split; [vm_compute; reflexivity |].
    eexists. split; [vm_compute; reflexivity | reflexivity].
Qed.

(** ** Position sizing *)

Section Sizing.

Open Scope float_scope.

Lemma position_hint_sized (acct risk_pct e u : float)
  (stop_price suggested_stop : option float) :
  used_stop suggested_stop stop_price = Some u ->
  position_hint (Number acct) (Number risk_pct) (Some e) stop_price suggested_stop
  = Some (if abs (e - u) =? 0 then HintMessage zero_distance_hint
          else Sized (acct * (risk_pct / 100))
                     (acct * (risk_pct / 100) / abs (e - u))).
Proof.
  intros Hu. unfold position_hint, sizing. cbn [typed is_some andb to_float bind].
  assert (is_some stop_price || is_some suggested_stop = true) as ->.
  { destruct suggested_stop, stop_price; try reflexivity. discriminate Hu. }
  rewrite Hu. destruct (abs (e - u) =? 0); reflexivity.
Qed.

Lemma position_hint_needs_all (acct_s risk_pct_s : num_text)
  (entry stop_price suggested_stop : option float) (risk_amount qty : float) :
  position_hint acct_s risk_pct_s entry stop_price suggested_stop
  = Some (Sized risk_amount qty) ->
  exists acct risk_pct e u,
    acct_s = Number acct /\ risk_pct_s = Number risk_pct
    /\ entry = Some e /\ used_stop suggested_stop stop_price = Some u.
Proof.
  unfold position_hint, sizing.
  destruct acct_s as [| ea | acct], risk_pct_s as [| er | risk_pct];
    cbn [typed andb orb]; try discriminate;
    destruct entry as [e |]; cbn [is_some andb]; try discriminate;
    destruct (is_some stop_price || is_some suggested_stop) eqn:Hs;
    cbn [to_float bind try_except]; try discriminate.
  destruct (used_stop suggested_stop stop_price) as [u |]; [| discriminate].
  intros _. exists acct, risk_pct, e, u. auto.
Qed.

Lemma position_hint_one_missing (acct_s risk_pct_s : num_text)
  (entry stop_price suggested_stop : option float) :
  typed acct_s = negb (typed risk_pct_s) ->
  position_hint acct_s risk_pct_s entry stop_price suggested_stop
  = Some (HintMessage provide_both_hint).
Proof.
  unfold position_hint, sizing.
  destruct (typed acct_s), (typed risk_pct_s); cbn; intros H;
    try discriminate H; reflexivity.
Qed.

End Sizing.

(** C6: with account, risk percent, entry and a resolved stop all present
    the hint is the zero-stop-distance sentence when |entry - stop| is 0,
    and otherwise quotes the risk amount account * (risk percent / 100) and
    the exposure risk amount / |entry - stop|; an exposure is quoted only
    when all four are present; when exactly one of account and risk percent
    is typed the hint asks for both.  Account 10000, risk 1, entry 1.1000
    and stop 1.0950 give "Risk $100.00" and exposure "20000.00"; with the
    stop at the entry the evaluation still returns, with the zero-distance
    sentence. *)
Theorem position_sizing_contract :
  (forall (trading_windows : list window) (a : answers) (acct risk_pct e u : float),
      acct_s a = Number acct -> risk_pct_s a = Number risk_pct ->
      entry_of a = Some e -> resolved_stop a = Some u ->
      exists r,
        evaluate trading_windows a = Returned r
        /\ pos_hint r
           = Some (if (abs (e - u) =? 0)%float
                   then HintMessage zero_distance_hint
                   else Sized (acct * (risk_pct / 100))%float
                              (acct * (risk_pct / 100) / abs (e - u))%float))
  /\ (forall (trading_windows : list window) (a : answers) (r : report)
        (risk_amount qty : float),
        evaluate trading_windows a = Returned r ->
        pos_hint r = Some (Sized risk_amount qty) ->
        exists acct risk_pct e u,
          acct_s a = Number acct /\ risk_pct_s a = Number risk_pct
          /\ entry_of a = Some e /\ resolved_stop a = Some u)
  /\ (forall (trading_windows : list window) (a : answers) (r : report),
        evaluate trading_windows a = Returned r ->
        typed (acct_s a) = negb (typed (risk_pct_s a)) ->
        pos_hint r = Some (HintMessage provide_both_hint))
  /\ (let a := mkAnswers Long Higher Expansion ["breakout"%string] Y N N ""
                 (Number 1.1) (Number 1.095) Blank (Number 10000) (Number 1) in
      exists r risk_amount qty,
        main "" a = Returned r
        /\ resolved_stop a = Some 1.095%float
        /\ pos_hint r = Some (Sized risk_amount qty)
        /\ risk_amount = 100%float
        /\ Binary64.format_2f risk_amount = "100.00"%string
        /\ Binary64.format_2f qty = "20000.00"%string
        /\ sized_text risk_amount qty
           = "Risk $100.00. Suggested position exposure (in price-units) = 20000.00."%string)
  /\ (let a := mkAnswers Long Higher Expansion ["breakout"%string] Y N N ""
                 (Number 1.1) (Number 1.1) Blank (Number 10000) (Number 1) in
      exists r,
        main "" a = Returned r
        /\ pos_hint r = Some (HintMessage zero_distance_hint)).
Proof.
  split; [| split; [| split; [| split]]].
  - intros ws a acct risk_pct e u Ha Hr He Hu.
    destruct (evaluate_report ws a) as [targets [_ H]].
    rewrite H. eexists. split; [reflexivity |]. cbn [pos_hint].
    unfold resolved_stop in Hu. rewrite Ha, Hr. rewrite He in Hu |- *.
    now apply position_hint_sized.
  - intros ws a r risk_amount qty Hr Hh.
    destruct (evaluate_report ws a) as [targets [_ H]].
    rewrite H in Hr. injection Hr as <-. cbn [pos_hint] in Hh.
    now apply position_hint_needs_all in Hh.
  - intros ws a r Hr Hone.
    destruct (evaluate_report ws a) as [targets [_ H]].
    rewrite H in Hr. injection Hr as <-. cbn [pos_hint].
    now apply position_hint_one_missing.
  - do 3 eexists. split; [reflexivity |]. split; [reflexivity |].
    split; [reflexivity |]. repeat split; vm_compute; reflexivity.
  - eexists. split; [reflexivity |]. vm_compute. reflexivity.
Qed.

(** Account 2500, risk 2, entry 1.2 and a stop typed as 1.19. *)
Lemma position_sizing_contract_holds :
  let a := mkAnswers Short Lower Reversal ["engulfing"%string] N Y N ""
             (Number 1.2) (Number 1.19) Blank (Number 2500) (Number 2) in
  acct_s a = Number 2500 /\ risk_pct_s a = Number 2
  /\ entry_of a = Some 1.2%float /\ resolved_stop a = Some 1.19%float
  /\ exists r,
      evaluate [] a = Returned r
      /\ pos_hint r
         = Some (if (abs (1.2 - 1.19) =? 0)%float
                 then HintMessage zero_distance_hint
                 else Sized (2500 * (2 / 100))%float
                            (2500 * (2 / 100) / abs (1.2 - 1.19))%float).
Proof.
  repeat (split; [reflexivity |]).
  apply (proj1 position_sizing_contract []
           (mkAnswers Short Lower Reversal ["engulfing"%string] N Y N ""
              (Number 1.2) (Number 1.19) Blank (Number 2500) (Number 2)));
    reflexivity.
Defined.

(* ================================================================== *)
(** * Further properties of the script *)

(** ** Times of day *)

Section TimesOfDay.

Open Scope Z_scope.

Lemma make_time_clock (h m : Z) (t : time) :
  make_time h m = Some t -> clock_time t.
Proof.
  unfold make_time, clock_time.
  destruct ((0 <=? h) && (h <? 24) && (0 <=? m) && (m <? 60)) eqn:E;
    [| discriminate].
  intros H. injection H as <-. cbn.
  repeat (apply andb_true_iff in E; destruct E as [E ?]). lia.
Qed.

Lemma renders_parse_back_spec (render : Z -> Z -> string) :
  renders_parse_back render = true ->
  forall h m, 0 <= h < 24 -> 0 <= m < 60 ->
              parse_time_str (render h m) = Some (mkTime h m).
Proof.
  unfold renders_parse_back. intros Hall h m Hh Hm.
  rewrite forallb_forall in Hall.
  assert (In h (map Z.of_nat (seq 0 24))) as Hin.
  { apply in_map_iff. exists (Z.to_nat h). split; [lia |].
    apply in_seq. lia. }
  specialize (Hall h Hin). rewrite forallb_forall in Hall.
  assert (In m (map Z.of_nat (seq 0 60))) as Hin'.
  { apply in_map_iff. exists (Z.to_nat m). split; [lia |].
    apply in_seq. lia. }
  specialize (Hall m Hin').
  destruct (parse_time_str (render h m)) as [[h' m'] |]; [| discriminate].
  cbn in Hall. apply andb_true_iff in Hall. destruct Hall as [H1 H2].
  apply Z.eqb_eq in H1, H2. now subst.
Qed.

End TimesOfDay.

(** X1: [parse_time_str] never returns a time outside the clock: the hour
    is in 0..23 and the minute in 0..59. *)
Theorem parse_time_str_clock_time :
  forall (tstr : string) (t : time),
    parse_time_str tstr = Some t -> clock_time t.
Proof.
  intros tstr t. unfold parse_time_str.
  destruct (Text.split ":"%char (Text.strip tstr)) as [| h_s [| m_s [| x more]]];
    try discriminate.
  destruct (Text.int h_s) as [h |]; [| discriminate].
  destruct (Text.int m_s) as [m |]; [| discriminate].
  apply make_time_clock.
Qed.

(** The time typed as 23:59. *)
Lemma parse_time_str_clock_time_holds :
  parse_time_str "23:59" = Some (mkTime 23 59) /\ clock_time (mkTime 23 59).
Proof.
  split; [reflexivity |].
  apply (parse_time_str_clock_time "23:59"). reflexivity.
Defined.

(** X2: every time of day is accepted in the shapes HH:MM, H:MM and H:M:
    for an hour in 0..23 and a minute in 0..59, the text with or without
    leading zeros parses to that hour and minute. *)
Theorem parse_time_str_accepts_clock_texts :
  forall h m : Z,
    (0 <= h < 24)%Z -> (0 <= m < 60)%Z ->
    parse_time_str (Binary64.two_digits h ++ ":" ++ Binary64.two_digits m)
    = Some (mkTime h m)
    /\ parse_time_str (Binary64.decimal h ++ ":" ++ Binary64.two_digits m)
       = Some (mkTime h m)
    /\ parse_time_str (Binary64.decimal h ++ ":" ++ Binary64.decimal m)
       = Some (mkTime h m).
Proof.
  intros h m Hh Hm. repeat split.
  - apply (renders_parse_back_spec
             (fun h m => Binary64.two_digits h ++ ":" ++ Binary64.two_digits m)%string);
      [vm_compute; reflexivity | exact Hh | exact Hm].
  - apply (renders_parse_back_spec
             (fun h m => Binary64.decimal h ++ ":" ++ Binary64.two_digits m)%string);
      [vm_compute; reflexivity | exact Hh | exact Hm].
  - apply (renders_parse_back_spec
             (fun h m => Binary64.decimal h ++ ":" ++ Binary64.decimal m)%string);
      [vm_compute; reflexivity | exact Hh | exact Hm].
Qed.

(** Five past nine, in the three shapes. *)
Lemma parse_time_str_accepts_clock_texts_holds :
  parse_time_str "09:05" = Some (mkTime 9 5)
  /\ parse_time_str "9:05" = Some (mkTime 9 5)
  /\ parse_time_str "9:5" = Some (mkTime 9 5).
Proof.
  apply (parse_time_str_accepts_clock_texts 9 5); lia.
Defined.

(** ** Lists of windows *)

Section WindowLists.

Open Scope Z_scope.

Lemma at_or_before_total (a b : time) : at_or_before a b \/ after a b.
Proof. unfold at_or_before, after. lia. Qed.

Lemma window_test_cover (t s e : time) :
  after s e -> window_test t (s, e) || window_test t (e, s) = true.
Proof.
  intros Hse. apply orb_true_iff. rewrite !window_test_spec.
  unfold window_matches, at_or_before, after in *. cbn. lia.
Qed.

End WindowLists.

(** X3: the answer of [time_in_windows] over two lists put together is the
    disjunction of the answers over each, and it does not depend on the
    order in which the windows are listed. *)
Theorem time_in_windows_union_and_order :
  (forall (t : time) (ws ws' : list window),
      time_in_windows t (ws ++ ws')
      = time_in_windows t ws || time_in_windows t ws')
  /\ (forall (t : time) (ws ws' : list window),
         Permutation ws ws' -> time_in_windows t ws = time_in_windows t ws').
Proof.
  split.
  - intros t ws ws'. rewrite !time_in_windows_existsb. apply existsb_app.
  - intros t ws ws' Hp. rewrite !time_in_windows_existsb.
    induction Hp as [| w l l' _ IH | x y l | l l' l'' _ IH1 _ IH2]; cbn.
    + reflexivity.
    + now rewrite IH.
    + destruct (window_test t x), (window_test t y); reflexivity.
    + now rewrite IH1.
Qed.

(** The morning and the overnight window, in either order. *)
Lemma time_in_windows_union_and_order_holds :
  let ws := [(mkTime 9 30, mkTime 11 30); (mkTime 22 0, mkTime 2 0)] in
  let ws' := [(mkTime 22 0, mkTime 2 0); (mkTime 9 30, mkTime 11 30)] in
  Permutation ws ws'
  /\ time_in_windows (mkTime 23 30) ws = time_in_windows (mkTime 23 30) ws'.
Proof.
  split; [apply perm_swap |].
  apply (proj2 time_in_windows_union_and_order). apply perm_swap.
Defined.

(** X4: a window that wraps past midnight (start after end) and the window
    with its ends swapped cover the whole day between them; the wrapping
    window leaves out exactly the times strictly between its end and its
    start; and a window whose start and end are the same time holds that
    time only. *)
Theorem wrapping_window_complement :
  forall s e : time,
    after s e ->
    (forall t : time,
        time_in_windows t [(s, e)] || time_in_windows t [(e, s)] = true)
    /\ (forall t : time,
           time_in_windows t [(s, e)] = false <-> after t e /\ after s t)
    /\ (forall t : time,
           time_in_windows t [(s, s)] = true <->
           hour t = hour s /\ minute t = minute s).
Proof.
  intros s e Hse. split; [| split].
  - intros t. rewrite !time_in_windows_existsb. cbn.
    rewrite !orb_false_r. now apply window_test_cover.
  - intros t. rewrite <- not_true_iff_false, time_in_windows_existsb.
    cbn [existsb]. rewrite orb_false_r, window_test_spec.
    unfold window_matches, at_or_before, after in *. lia.
  - intros t. rewrite time_in_windows_existsb.
    cbn [existsb]. rewrite orb_false_r, window_test_spec.
    unfold window_matches, at_or_before, after. lia.
Qed.

(** The overnight window 22:00-02:00 leaves out noon. *)
Lemma wrapping_window_complement_holds :
  after (mkTime 22 0) (mkTime 2 0)
  /\ (time_in_windows (mkTime 12 0) [(mkTime 22 0, mkTime 2 0)] = false <->
      after (mkTime 12 0) (mkTime 2 0) /\ after (mkTime 22 0) (mkTime 12 0)).
Proof.
  split; [left; reflexivity |].
  apply (wrapping_window_complement (mkTime 22 0) (mkTime 2 0)).
  left. reflexivity.
Defined.

(** ** Window text, part by part *)

Section WindowParts.

Open Scope string_scope.

Lemma extra_dash_or_one_dash (p : string) : extra_dash p \/ one_dash p.
Proof. unfold extra_dash, one_dash. lia. Qed.

Lemma extra_dash_contains (p : string) :
  extra_dash p -> Text.contains "-" p = true.
Proof.
  unfold extra_dash. intros H.
  destruct (Text.contains "-" p) eqn:Hc; [reflexivity |].
  exfalso.
  destruct (Text.split "-"%char p) as [| a [| b [| c more]]] eqn:Hs;
    simpl in H; try lia.
  clear H. revert a b c more Hs.
  induction p as [| ch rest IH]; intros a b c more Hs; [discriminate Hs |].
  rewrite contains_dash_cons in Hc. apply orb_false_iff in Hc.
  destruct Hc as [Hch Hrest].
  cbn [Text.split] in Hs. rewrite Hch in Hs.
  destruct (Text.split "-"%char rest) as [| f [| g [| h more']]] eqn:Hs';
    try discriminate Hs.
  exact (IH Hrest f g h more' eq_refl).
Qed.

(** The loop raises exactly when some part has more than one dash, and
    then with the unpacking error. *)
Lemma parse_parts_raises (parts : list string) (windows : list window) (e : exn) :
  parse_parts parts windows = Raised e <->
  Exists extra_dash parts /\ e = too_many_values.
Proof.
  revert windows. induction parts as [| p rest IH]; intros windows.
  - cbn. split; [discriminate |]. intros [H _]. inversion H.
  - destruct (extra_dash_or_one_dash p) as [Hx | Ho].
    + cbn [parse_parts]. rewrite (extra_dash_contains p Hx). cbn [negb].
      pose proof Hx as Hlen. unfold extra_dash in Hlen.
      destruct (Text.split "-"%char p) as [| a [| b [| c more]]];
        simpl in Hlen; try lia.
      split.
      * intros H. injection H as <-. split; [| reflexivity].
        now apply Exists_cons_hd.
      * intros [_ ->]. reflexivity.
    + assert (forall ws, exists ws',
                 parse_parts (p :: rest) ws = parse_parts rest ws') as Hstep.
      { intros ws. cbn [parse_parts].
        destruct (Text.contains "-" p) eqn:Hdash; cbn [negb]; [| eauto].
        apply split_on_dash in Hdash. unfold one_dash in Ho.
        destruct (Text.split "-"%char p) as [| a [| b [| c more]]];
          simpl in Hdash, Ho; try lia.
        destruct (parse_time_str a), (parse_time_str b); eauto. }
      destruct (Hstep windows) as [ws' ->]. rewrite IH.
      split; intros [Hex He]; (split; [| exact He]).
      * now apply Exists_cons_tl.
      * inversion Hex; subst; [| assumption].
        unfold extra_dash, one_dash in *. lia.
Qed.

End WindowParts.

Lemma parse_time_str_in_clock (tstr : string) (t : time) :
  parse_time_str tstr = Some t -> clock_time t.
Proof.
  unfold parse_time_str.
  destruct (Text.split ":"%char (Text.strip tstr)) as [| h_s [| m_s [| x more]]];
    try discriminate.
  destruct (Text.int h_s) as [h |], (Text.int m_s) as [m |]; try discriminate.
  apply make_time_clock.
Qed.

Lemma window_of_part_clock (p : string) :
  Forall (fun w : window => clock_time (fst w) /\ clock_time (snd w))
         (window_of_part p).
Proof.
  unfold window_of_part.
  destruct (Text.split "-"%char p) as [| a [| b [| c more]]]; try constructor.
  destruct (parse_time_str a) as [ta |] eqn:Ha; [| constructor].
  destruct (parse_time_str b) as [tb |] eqn:Hb; constructor; [| constructor].
  split; eapply parse_time_str_in_clock; eassumption.
Qed.

Lemma window_of_part_at_most_one (p : string) :
  (List.length (window_of_part p) <= 1)%nat.
Proof.
  unfold window_of_part.
  destruct (Text.split "-"%char p) as [| a [| b [| c more]]]; simpl; try lia.
  destruct (parse_time_str a), (parse_time_str b); simpl; lia.
Qed.

Lemma no_extra_dash_one_dash (parts : list string) :
  ~ Exists extra_dash parts -> Forall one_dash parts.
Proof.
  intros H. apply Forall_forall. intros p Hin.
  destruct (extra_dash_or_one_dash p) as [Hx | Ho]; [| exact Ho].
  exfalso. apply H. apply Exists_exists. eauto.
Qed.

Lemma parse_windows_input_raises_iff_parts (win_str : string) (e : exn) :
  parse_windows_input win_str = Raised e <->
  Exists extra_dash (window_parts win_str) /\ e = too_many_values.
Proof. unfold parse_windows_input. apply parse_parts_raises. Qed.

(** X5: [parse_windows_input] raises exactly when one of the stripped,
    non-empty parts between commas has more than one dash, and what it
    raises is then the [ValueError] of the unpacking, "too many values to
    unpack"; no other text makes it fail. *)
Theorem parse_windows_input_raises_iff :
  forall (win_str : string) (e : exn),
    parse_windows_input win_str = Raised e <->
    Exists extra_dash (window_parts win_str) /\ e = too_many_values.
Proof.
  intros win_str e. unfold parse_windows_input. apply parse_parts_raises.
Qed.

(** X6: for a window text in ASCII, when [parse_windows_input] returns,
    the windows are the ranges of the parts whose two ends both parse, in
    the order typed; both ends of every window are times of the clock, and
    there are no more windows than parts.  A text with nothing but white
    space between its commas gives the empty list. *)
Theorem parse_windows_input_result :
  (forall (win_str : string) (windows : list window),
      Text.ascii_text win_str = true ->
      parse_windows_input win_str = Returned windows ->
      windows = flat_map window_of_part (window_parts win_str)
      /\ Forall (fun w : window => clock_time (fst w) /\ clock_time (snd w))
                windows
      /\ (List.length windows <= List.length (window_parts win_str))%nat)
  /\ (forall win_str : string,
         Text.ascii_text win_str = true ->
         Forall (fun p => Text.strip p = ""%string)
                (Text.split ","%char win_str) ->
         parse_windows_input win_str = Returned []).
Proof.
  split.
  - intros win_str windows _ H. unfold parse_windows_input in H.
    assert (Forall one_dash (window_parts win_str)) as Hone.
    { apply no_extra_dash_one_dash. intros Hex.
      assert (parse_parts (window_parts win_str) [] = Raised too_many_values)
        as Hr by (apply parse_parts_raises; auto).
      congruence. }
    rewrite (parse_parts_tolerant _ [] Hone) in H. injection H as <-.
    cbn [app]. split; [reflexivity |].
    induction (window_parts win_str) as [| p rest IH]; cbn [flat_map].
    + split; [constructor | simpl; lia].
    + inversion Hone; subst. destruct (IH H2) as [IH1 IH2]. split.
      * apply Forall_app. split; [apply window_of_part_clock | exact IH1].
      * rewrite length_app. pose proof (window_of_part_at_most_one p).
        simpl. lia.
  - intros win_str _ Hblank. unfold parse_windows_input, window_parts.
    induction Hblank as [| p rest Hp _ IH]; [reflexivity |].
    cbn [filter]. rewrite Hp. cbn. exact IH.
Qed.

(** Two ranges around a word and an hour that does not exist. *)
Lemma parse_windows_input_result_holds :
  let win_str := "09:30-11:30, lunch ,25:00-26:00,13:00-15:00"%string in
  let windows := [(mkTime 9 30, mkTime 11 30); (mkTime 13 0, mkTime 15 0)] in
  Text.ascii_text win_str = true
  /\ parse_windows_input win_str = Returned windows
  /\ windows = flat_map window_of_part (window_parts win_str)
  /\ Forall (fun w : window => clock_time (fst w) /\ clock_time (snd w)) windows
  /\ (List.length windows <= List.length (window_parts win_str))%nat.
Proof.
  split; [reflexivity |]. split; [reflexivity |].
  apply (proj1 parse_windows_input_result); reflexivity.
Defined.

(** ** Prompts *)

Section Prompts.

Import Prompt.

Open Scope string_scope.

Lemma get_input_step (valid : list string) (line : string) (rest : list string) :
  valid <> [] ->
  get_input valid None (line :: rest)
  = if accepted valid (Text.strip line)
    then Done (Text.lower (Text.strip line)) rest
    else get_input valid None rest.
Proof.
  intros Hv. cbn [get_input].
  destruct (Text.is_empty (Text.strip line));
    destruct valid; try contradiction; reflexivity.
Qed.

Lemma get_input_never_crashes (valid : list string) (default : option string)
  (stdin : list string) (e : exn) :
  get_input valid default stdin <> Crashed e.
Proof.
  induction stdin as [| line rest IH]; cbn [get_input]; [discriminate |].
  destruct (if Text.is_empty (Text.strip line) then default else None);
    [discriminate |].
  destruct valid; [discriminate |].
  destruct (accepted _ _); [discriminate | exact IH].
Qed.

Lemma get_input_done_in_valid (valid : list string) (default : option string)
  (stdin : list string) (v : string) (rest : list string) :
  valid <> [] ->
  get_input valid default stdin = Done v rest ->
  In v (map Text.lower valid) \/ default = Some v.
Proof.
  intros Hv. induction stdin as [| line more IH]; cbn [get_input];
    [discriminate |].
  destruct (if Text.is_empty (Text.strip line) then default else None)
    as [d |] eqn:Hd.
  - intros H. injection H as <- <-. right.
    destruct (Text.is_empty (Text.strip line)); [exact Hd | discriminate Hd].
  - destruct valid as [| v0 vs]; [contradiction |].
    destruct (accepted (v0 :: vs) (Text.strip line)) eqn:Ha; [| exact IH].
    intros H. injection H as <- <-. left.
    unfold accepted, Text.mem in Ha. apply existsb_exists in Ha.
    destruct Ha as [x [Hin Hx]]. apply String.eqb_eq in Hx. now subst x.
Qed.

End Prompts.

(** X7: with a list of valid answers and no default, over answers and
    typed lines in ASCII, [get_input] returns the first line that,
    stripped and lower-cased, is one of the valid answers in lower case,
    and returns it stripped and lower-cased, leaving the lines after it
    unread; every line before it is skipped.  It runs out of input exactly
    when no line is accepted, and it never raises an exception of its
    own. *)
Theorem get_input_first_accepted :
  forall (valid : list string) (stdin : list string),
    valid <> [] ->
    ascii_lines valid = true ->
    ascii_lines stdin = true ->
    (forall (v : string) (rest : list string),
        Prompt.get_input valid None stdin = Prompt.Done v rest <->
        exists skipped line,
          stdin = skipped ++ line :: rest
          /\ Forall (fun l => Prompt.accepted valid (Text.strip l) = false) skipped
          /\ Prompt.accepted valid (Text.strip line) = true
          /\ v = Text.lower (Text.strip line))
    /\ (Prompt.get_input valid None stdin = Prompt.EndOfInput <->
        Forall (fun l => Prompt.accepted valid (Text.strip l) = false) stdin)
    /\ (forall e : exn, Prompt.get_input valid None stdin <> Prompt.Crashed e).
Proof.
  intros valid stdin Hv _ _. split; [| split].
  - induction stdin as [| l more IH]; intros v rest.
    + split; [discriminate |].
      intros (skipped & line & H & _). destruct skipped; discriminate H.
    + rewrite (get_input_step _ _ _ Hv).
      destruct (Prompt.accepted valid (Text.strip l)) eqn:Ha.
      * split.
        -- intros H. injection H as <- <-. exists [], l. repeat split; auto.
        -- intros (skipped & line & H & Hsk & Hline & ->).
           destruct skipped as [| s0 sk]; cbn in H; injection H as H1 H2.
           ++ now subst.
           ++ inversion Hsk; subst. congruence.
      * rewrite IH. split.
        -- intros (skipped & line & -> & Hsk & Hline & ->).
           exists (l :: skipped), line. repeat split; auto.
        -- intros (skipped & line & H & Hsk & Hline & ->).
           destruct skipped as [| s0 sk]; cbn in H; injection H as H1 H2.
           ++ subst. congruence.
           ++ inversion Hsk; subst. exists sk, line. repeat split; auto.
  - induction stdin as [| l more IH].
    + split; [constructor | reflexivity].
    + rewrite (get_input_step _ _ _ Hv).
      destruct (Prompt.accepted valid (Text.strip l)) eqn:Ha.
      * split; [discriminate |]. intros H. inversion H; subst. congruence.
      * rewrite IH. split; intros H; [now constructor | now inversion H].
  - intros e. apply get_input_never_crashes.
Qed.

(** A direction typed as "q", then as " LONG ". *)
Lemma get_input_first_accepted_holds :
  Prompt.sides <> []
  /\ ascii_lines Prompt.sides = true
  /\ ascii_lines ["q"; " LONG "; "higher"]%string = true
  /\ Prompt.get_input Prompt.sides None ["q"; " LONG "; "higher"]%string
     = Prompt.Done "long"%string ["higher"%string].
Proof.
  split; [discriminate |]. split; [reflexivity |]. split; [reflexivity |].
  apply (proj1 (get_input_first_accepted Prompt.sides
                  ["q"; " LONG "; "higher"]%string ltac:(discriminate)
                  eq_refl eq_refl)).
  exists ["q"%string], " LONG "%string. repeat split.
  constructor; [reflexivity | constructor].
Defined.

(** X8: what [get_input] returns for a non-empty list of valid answers is
    one of them in lower case, unless it is the default, which is returned
    for an empty line without being checked; so at the prompts of [main]
    the direction is "long" or "short", the structure "higher", "lower" or
    "unclear", the environment one of its four words, and a yes/no answer
    "y" or "n". *)
Theorem get_input_returns_valid :
  (forall (valid : list string) (default : option string) (stdin : list string)
          (v : string) (rest : list string),
      valid <> [] ->
      Prompt.get_input valid default stdin = Prompt.Done v rest ->
      In v (map Text.lower valid) \/ default = Some v)
  /\ (forall (stdin : list string) (v : string) (rest : list string),
         Prompt.get_input Prompt.sides None stdin = Prompt.Done v rest ->
         v = "long"%string \/ v = "short"%string)
  /\ (forall (stdin : list string) (v : string) (rest : list string),
         Prompt.get_input Prompt.structures None stdin = Prompt.Done v rest ->
         v = "higher"%string \/ v = "lower"%string \/ v = "unclear"%string)
  /\ (forall (stdin : list string) (v : string) (rest : list string),
         Prompt.get_input Prompt.environments None stdin = Prompt.Done v rest ->
         v = "expansion"%string \/ v = "consolidation"%string
         \/ v = "reversal"%string \/ v = "retracement"%string)
  /\ (forall (stdin : list string) (v : string) (rest : list string),
         Prompt.get_input Prompt.yes_or_no None stdin = Prompt.Done v rest ->
         v = "y"%string \/ v = "n"%string).
Proof.
  split; [exact get_input_done_in_valid |].
  repeat split; intros stdin v rest H;
    apply get_input_done_in_valid in H; try discriminate;
    destruct H as [H | H]; try discriminate H;
    cbn in H; intuition auto.
Qed.

(** A default of "n" returned for an empty line, and a typed "Y". *)
Lemma get_input_returns_valid_holds :
  Prompt.get_input Prompt.yes_or_no (Some "n"%string) [""; "Y"]%string
  = Prompt.Done "n"%string ["Y"%string]
  /\ (In "n"%string (map Text.lower Prompt.yes_or_no)
      \/ Some "n"%string = Some "n"%string).
Proof.
  split; [reflexivity |].
  apply (proj1 get_input_returns_valid Prompt.yes_or_no (Some "n"%string)
           [""; "Y"]%string "n"%string ["Y"%string]);
    [discriminate | reflexivity].
Defined.

(** ** Patterns *)

Section Patterns.

Open Scope string_scope.

Lemma lower_char_idempotent (c : ascii) :
  Text.lower_char (Text.lower_char c) = Text.lower_char c.
Proof. destruct c as [[] [] [] [] [] [] [] []]; reflexivity. Qed.

Lemma lower_idempotent (s : string) : Text.lower (Text.lower s) = Text.lower s.
Proof.
  induction s as [| c rest IH]; cbn; [reflexivity |].
  now rewrite lower_char_idempotent, IH.
Qed.

Lemma lower_truthy (s : string) : Text.truthy (Text.lower s) = Text.truthy s.
Proof. destruct s; reflexivity. Qed.

Lemma truthy_nonempty (s : string) : Text.truthy s = true <-> s <> "".
Proof. destruct s; cbn; split; intros; try discriminate; congruence. Qed.

(** The fields [main] keeps, before the "none" fallback. *)
Lemma found_patterns (patterns_raw : string) :
  let found :=
    map (fun p => Text.lower (Text.strip p))
        (filter (fun p => Text.truthy (Text.strip p))
                (Text.split ","%char patterns_raw)) in
  Prompt.clean_patterns patterns_raw
  = match found with [] => ["none"] | _ => found end.
Proof.
  unfold Prompt.clean_patterns. cbv zeta.
  destruct (map _ _); reflexivity.
Qed.

End Patterns.

(** X9: the pattern list [main] builds from a line typed in ASCII is never
    empty; every pattern in it is a non-empty, lower-case word; every
    field between commas that is not blank appears in it stripped and
    lower-cased, so patterns are recognised whatever their case and
    spacing; and a line with only blank fields gives the single pattern
    "none". *)
Theorem clean_patterns_shape :
  forall patterns_raw : string,
    Text.ascii_text patterns_raw = true ->
    Prompt.clean_patterns patterns_raw <> []
    /\ Forall (fun p => p <> ""%string /\ Text.lower p = p)
              (Prompt.clean_patterns patterns_raw)
    /\ (forall field : string,
           In field (Text.split ","%char patterns_raw) ->
           Text.strip field <> ""%string ->
           In (Text.lower (Text.strip field))
              (Prompt.clean_patterns patterns_raw))
    /\ (Forall (fun field => Text.strip field = ""%string)
               (Text.split ","%char patterns_raw) ->
        Prompt.clean_patterns patterns_raw = ["none"%string]).
Proof.
  intros raw _. rewrite found_patterns. cbv zeta.
  set (fields := Text.split ","%char raw).
  assert (Forall (fun p => p <> ""%string /\ Text.lower p = p)
            (map (fun p => Text.lower (Text.strip p))
               (filter (fun p => Text.truthy (Text.strip p)) fields))) as Hall.
  { apply Forall_forall. intros p Hin. apply in_map_iff in Hin.
    destruct Hin as [f [<- Hf]]. apply filter_In in Hf. destruct Hf as [_ Hf].
    split; [| apply lower_idempotent].
    apply truthy_nonempty. now rewrite lower_truthy. }
  assert (forall field, In field fields -> Text.strip field <> ""%string ->
            In (Text.lower (Text.strip field))
               (map (fun p => Text.lower (Text.strip p))
                  (filter (fun p => Text.truthy (Text.strip p)) fields))) as Hin.
  { intros f Hf Hne.
    apply (in_map (fun p => Text.lower (Text.strip p))).
    apply filter_In. split; [exact Hf |].
    now apply truthy_nonempty. }
  destruct (map (fun p => Text.lower (Text.strip p))
              (filter (fun p => Text.truthy (Text.strip p)) fields))
    as [| p0 ps] eqn:Hfound.
  - split; [discriminate |]. split.
    + constructor; [| constructor]. split; [discriminate | reflexivity].
    + split; [| reflexivity].
      intros f Hf Hne. destruct (Hin f Hf Hne).
  - split; [discriminate |]. split; [exact Hall |]. split; [exact Hin |].
    intros Hblank. exfalso.
    assert (In p0 (p0 :: ps)) as Hp0 by (left; reflexivity).
    rewrite <- Hfound in Hp0. apply in_map_iff in Hp0.
    destruct Hp0 as [f [_ Hf]]. apply filter_In in Hf. destruct Hf as [Hf Ht].
    rewrite Forall_forall in Hblank. rewrite (Hblank f Hf) in Ht.
    discriminate Ht.
Qed.

(** " Engulfing , ,BREAKOUT": two patterns, cleaned. *)
Lemma clean_patterns_shape_holds :
  Text.ascii_text " Engulfing , ,BREAKOUT" = true
  /\ Prompt.clean_patterns " Engulfing , ,BREAKOUT"
     = ["engulfing"; "breakout"]%string
  /\ Prompt.clean_patterns " Engulfing , ,BREAKOUT" <> []
  /\ Forall (fun p => p <> ""%string /\ Text.lower p = p)
            (Prompt.clean_patterns " Engulfing , ,BREAKOUT").
Proof.
  split; [reflexivity |]. split; [reflexivity |].
  destruct (clean_patterns_shape " Engulfing , ,BREAKOUT" eq_refl)
    as (H1 & H2 & _).
  split; [exact H1 | exact H2].
Defined.

(** ** The session *)

Section Session.

Import Prompt.

Open Scope string_scope.

Variable float : string -> outcome float.

Lemma then_run_crashed {A B : Type} (c : run A) (k : A -> list string -> run B)
  (e : exn) :
  then_run c k = Crashed e ->
  c = Crashed e \/ exists a rest, c = Done a rest /\ k a rest = Crashed e.
Proof.
  destruct c as [a rest | e' |]; cbn; intros H;
    [right; eauto | left; congruence | discriminate H].
Qed.

Lemma input_stripped_never_crashes (stdin : list string) (e : exn) :
  input_stripped stdin <> Crashed e.
Proof. destruct stdin; discriminate. Qed.

Lemma lift_evaluate_never_crashes (trading_windows : list window) (a : answers)
  (stdin : list string) (e : exn) :
  lift (evaluate trading_windows a) stdin <> Crashed e.
Proof.
  destruct (evaluate_returns trading_windows a) as [r ->]. discriminate.
Qed.

(** Once the windows are read nothing in the session raises. *)
Lemma after_windows_never_crashes (trading_windows : list window)
  (stdin : list string) (e : exn) :
  then_run (get_input sides None stdin) (fun direction stdin =>
  then_run (get_input structures None stdin) (fun structure_1h stdin =>
  then_run (get_input environments None stdin) (fun market_env stdin =>
  then_run (input_stripped stdin) (fun patterns_raw stdin =>
  if Text.lower patterns_raw =? "q" then Done None stdin
  else
  then_run (get_input yes_or_no None stdin) (fun fvg stdin =>
  then_run (get_input yes_or_no None stdin) (fun ob stdin =>
  then_run (get_input yes_or_no None stdin) (fun liq stdin =>
  then_run (input_stripped stdin) (fun time_setup_str stdin =>
  then_run (input_stripped stdin) (fun entry_s stdin =>
  then_run (input_stripped stdin) (fun stop_s stdin =>
  then_run
    (match optional_float (read_number float entry_s),
           optional_float (read_number float stop_s) with
     | Some _, None => input_stripped stdin
     | _, _ => Done "" stdin
     end) (fun atr_s stdin =>
  then_run (input_stripped stdin) (fun acct_s stdin =>
  then_run (input_stripped stdin) (fun risk_pct_s stdin =>
  then_run
    (lift (evaluate trading_windows
             (mkAnswers (side_of direction) (structure_of structure_1h)
                (environment_of market_env) (clean_patterns patterns_raw)
                (yes_no_of fvg) (yes_no_of ob) (yes_no_of liq)
                time_setup_str (read_number float entry_s)
                (read_number float stop_s) (read_number float atr_s)
                (read_number float acct_s) (read_number float risk_pct_s)))
          stdin) (fun r stdin =>
  Done (Some r) stdin))))))))))))))
  <> Crashed e.
Proof.
  intros H.
  repeat match type of H with
         | then_run _ _ = Crashed _ =>
             apply then_run_crashed in H;
             destruct H as [H | (? & ? & _ & H)];
             [first [ exact (get_input_never_crashes _ _ _ _ H)
                    | exact (input_stripped_never_crashes _ _ H)
                    | exact (lift_evaluate_never_crashes _ _ _ _ H)
                    | (destruct (optional_float _) as [?|];
                       [destruct (optional_float _) as [?|] |];
                       first [ discriminate H
                             | exact (input_stripped_never_crashes _ _ H) ]) ]
             |]
         | (if ?c then _ else _) = Crashed _ =>
             destruct c; [discriminate H |]
         end.
  discriminate H.
Qed.

End Session.

(** X10: where "q" quits, in a session typed in ASCII.  Typed at the
    patterns prompt, in either case and with spaces around it, it ends the
    session before any evaluation, leaving the later lines unread.  Typed
    at the direction prompt it is one more answer that is not accepted:
    the prompt is repeated and the session goes on as if the line had not
    been typed. *)
Theorem q_quits_at_patterns_prompt_only :
  forall float : string -> outcome PrimFloat.float,
    (forall (w : string) (stdin : list string) (d s e p : string)
            (after_d after_s rest : list string) (windows : list window),
        ascii_lines (w :: stdin) = true ->
        (if Text.truthy (Text.strip w) then parse_windows_input (Text.strip w)
         else Returned []) = Returned windows ->
        Prompt.get_input Prompt.sides None stdin = Prompt.Done d after_d ->
        Prompt.get_input Prompt.structures None after_d = Prompt.Done s after_s ->
        Prompt.get_input Prompt.environments None after_s
        = Prompt.Done e (p :: rest) ->
        Text.lower (Text.strip p) = "q"%string ->
        Prompt.run_main float (w :: stdin) = Prompt.Done None rest)
    /\ (forall (w line : string) (rest : list string),
           ascii_lines (w :: line :: rest) = true ->
           Prompt.accepted Prompt.sides (Text.strip line) = false ->
           Prompt.run_main float (w :: line :: rest)
           = Prompt.run_main float (w :: rest))
    /\ Prompt.accepted Prompt.sides (Text.strip "q") = false.
Proof.
  intros float. split; [| split; [| reflexivity]].
  - intros w stdin d s e p after_d after_s rest ws _ Hw Hd Hs He Hq.
    unfold Prompt.run_main.
    cbn [Prompt.input_stripped Prompt.then_run]. rewrite Hw.
    cbn [Prompt.lift Prompt.then_run]. rewrite Hd.
    cbn [Prompt.then_run]. rewrite Hs.
    cbn [Prompt.then_run]. rewrite He.
    cbn [Prompt.then_run Prompt.input_stripped]. rewrite Hq. reflexivity.
  - intros w line rest _ Hrej. unfold Prompt.run_main.
    cbn [Prompt.input_stripped Prompt.then_run].
    destruct (if Text.truthy (Text.strip w)
              then parse_windows_input (Text.strip w) else Returned [])
      as [ws | e]; cbn [Prompt.lift Prompt.then_run]; [| reflexivity].
    rewrite get_input_step by discriminate. rewrite Hrej. reflexivity.
Qed.

(** A blank window line, a direction, a structure, an environment, then
    " Q ": nothing after it is read. *)
Lemma q_quits_at_patterns_prompt_only_holds :
  ascii_lines [""; "long"; "higher"; "expansion"; " Q "; "y"; "n"]%string = true
  /\ Prompt.run_main (fun _ => Raised (ValueError ""))
       [""; "long"; "higher"; "expansion"; " Q "; "y"; "n"]%string
     = Prompt.Done None ["y"; "n"]%string.
Proof.
  split; [reflexivity |].
  apply (proj1 (q_quits_at_patterns_prompt_only (fun _ => Raised (ValueError "")))
           ""%string ["long"; "higher"; "expansion"; " Q "; "y"; "n"]%string
           "long"%string "higher"%string "expansion"%string " Q "%string
           ["higher"; "expansion"; " Q "; "y"; "n"]%string
           ["expansion"; " Q "; "y"; "n"]%string ["y"; "n"]%string []);
    reflexivity.
Defined.

(** X11: the only exception a session can end with is the one
    [parse_windows_input] raises on the first line (a part with more than
    one dash); whatever is typed at the later prompts, the session returns
    a report, quits on "q", or runs out of input. *)
Theorem session_crashes_only_on_window_text :
  forall (float : string -> outcome PrimFloat.float)
         (stdin : list string) (e : exn),
    Prompt.run_main float stdin = Prompt.Crashed e <->
    exists w rest,
      stdin = w :: rest
      /\ Text.strip w <> ""%string
      /\ Exists extra_dash (window_parts (Text.strip w))
      /\ e = too_many_values.
Proof.
  intros float stdin e. split.
  - unfold Prompt.run_main. destruct stdin as [| w rest]; [discriminate |].
    cbn [Prompt.input_stripped Prompt.then_run].
    destruct (Text.truthy (Text.strip w)) eqn:Ht.
    + destruct (parse_windows_input (Text.strip w)) as [ws | e'] eqn:Hp;
        cbn [Prompt.lift Prompt.then_run].
      * intros H. exfalso. exact (after_windows_never_crashes float ws rest e H).
      * intros H. injection H as <-. exists w, rest.
        apply parse_windows_input_raises_iff_parts in Hp.
        repeat split; try tauto. now apply truthy_nonempty.
    + cbn [Prompt.lift Prompt.then_run]. intros H. exfalso.
      exact (after_windows_never_crashes float [] rest e H).
  - intros (w & rest & -> & Hne & Hex & ->). unfold Prompt.run_main.
    cbn [Prompt.input_stripped Prompt.then_run].
    apply truthy_nonempty in Hne. rewrite Hne.
    assert (parse_windows_input (Text.strip w) = Raised too_many_values) as ->
        by (apply parse_windows_input_raises_iff_parts; auto).
    reflexivity.
Qed.

(** ** Rules, one by one *)

Section RuleByRule.

Open Scope Z_scope.

Lemma additive_add (delta : Z) : additive (add delta).
Proof. intros [s rs]. unfold add. cbn. now rewrite app_nil_r. Qed.

Lemma additive_append (r : string) : additive (append r).
Proof. intros [s rs]. unfold append. cbn. f_equal. lia. Qed.

Lemma additive_id : additive (fun t => t).
Proof. intros [s rs]. cbn. f_equal; [lia | now rewrite app_nil_r]. Qed.

Lemma additive_compose (f g : tally -> tally) :
  additive f -> additive g -> additive (fun t => f (g t)).
Proof.
  intros Hf Hg t. rewrite (Hf (g t)), (Hg t), (Hf (g start)). cbn.
  f_equal; [lia | now rewrite app_assoc].
Qed.

Lemma rule_structure_additive (a : answers) : additive (rule_structure a).
Proof.
  unfold rule_structure.
  destruct (direction a), (structure_1h a);
    first [ apply additive_add
          | apply additive_append
          | apply (additive_compose (append _) (add _));
            [apply additive_append | apply additive_add] ].
Qed.

Lemma rule_environment_additive (a : answers) : additive (rule_environment a).
Proof.
  unfold rule_environment.
  destruct (market_env a);
    repeat match goal with
           | |- context [if ?c then _ else _] => destruct c
           end;
    first [ apply additive_add
          | apply additive_id
          | apply (additive_compose (add _) (append _));
            [apply additive_add | apply additive_append] ].
Qed.

Lemma rule_confirmation_additive (a : answers) : additive (rule_confirmation a).
Proof.
  unfold rule_confirmation.
  destruct (ict_confirm a), (pattern_confirm a); cbn [andb];
    first [ apply additive_add
          | apply additive_append
          | apply (additive_compose (append _) (add _));
            [apply additive_append | apply additive_add] ].
Qed.

Lemma rule_timing_additive (trading_windows : list window) (a : answers)
  (ok : bool) : additive (rule_timing trading_windows a ok).
Proof.
  unfold rule_timing.
  destruct trading_windows; [apply additive_id |].
  destruct (Text.truthy (time_setup_str a)); [| apply additive_id].
  destruct ok; [apply additive_add | apply additive_append].
Qed.

End RuleByRule.

Lemma rules_split (trading_windows : list window) (a : answers) (ok : bool) :
  score (rules trading_windows a ok)
  = (score (rule_structure a start)
     + score (rule_environment a start)
     + score (rule_confirmation a start)
     + score (rule_timing trading_windows a ok start))%Z
  /\ reasons (rules trading_windows a ok)
     = reasons (rule_structure a start)
       ++ reasons (rule_environment a start)
       ++ reasons (rule_confirmation a start)
       ++ reasons (rule_timing trading_windows a ok start).
Proof.
  pose proof (rule_environment_additive a) as H2.
  pose proof (rule_confirmation_additive a) as H3.
  pose proof (rule_timing_additive trading_windows a ok) as H4.
  unfold rules. fold start.
  rewrite (H4 (rule_confirmation a _)), (H3 (rule_environment a _)),
    (H2 (rule_structure a start)).
  cbn [score reasons]. split; [lia |].
  now rewrite <- !app_assoc.
Qed.

(** X12: the four rules are independent: what each adds to the score and
    appends to the reasons does not depend on the tally it is given, so
    the score of rules 1-4 is the sum of the four contributions and the
    reasons are the four rules' reasons in rule order, none removed. *)
Theorem rules_add_up :
  forall (trading_windows : list window) (a : answers) (ok : bool),
    additive (rule_structure a)
    /\ additive (rule_environment a)
    /\ additive (rule_confirmation a)
    /\ additive (rule_timing trading_windows a ok)
    /\ score (rules trading_windows a ok)
       = (score (rule_structure a start)
          + score (rule_environment a start)
          + score (rule_confirmation a start)
          + score (rule_timing trading_windows a ok start))%Z
    /\ reasons (rules trading_windows a ok)
       = reasons (rule_structure a start)
         ++ reasons (rule_environment a start)
         ++ reasons (rule_confirmation a start)
         ++ reasons (rule_timing trading_windows a ok start).
Proof.
  intros ws a ok.
  split; [apply rule_structure_additive |].
  split; [apply rule_environment_additive |].
  split; [apply rule_confirmation_additive |].
  split; [apply rule_timing_additive |].
  apply rules_split.
Qed.

Section Bounds.

Open Scope Z_scope.

Lemma rules_score_at_most_8 (trading_windows : list window) (a : answers)
  (ok : bool) : score (rules trading_windows a ok) <= 8.
Proof.
  unfold rules, rule_timing, rule_confirmation, rule_environment, rule_structure.
  destruct (direction a), (structure_1h a), (market_env a), trading_windows;
    repeat match goal with
           | |- context [if ?c then _ else _] => destruct c
           end;
    cbn; lia.
Qed.

Lemma rules_reasons_at_most_4 (trading_windows : list window) (a : answers)
  (ok : bool) : (List.length (reasons (rules trading_windows a ok)) <= 4)%nat.
Proof.
  unfold rules, rule_timing, rule_confirmation, rule_environment, rule_structure.
  destruct (direction a), (structure_1h a), (market_env a), trading_windows;
    repeat match goal with
           | |- context [if ?c then _ else _] => destruct c
           end;
    cbn; lia.
Qed.

Lemma stop_notes_at_most_1 (entry stop_price atr : option float) (d : side) :
  (List.length (stop_notes (stop_stage entry stop_price atr d)) <= 1)%nat.
Proof.
  unfold stop_stage.
  destruct entry; [destruct stop_price; [| destruct atr] |]; cbn; lia.
Qed.

End Bounds.

(** X13: the score of a report lies between 0 and 8 and 8 is reached; the
    report carries at most five reasons, one per rule and one from the
    stop calculation. *)
Theorem score_and_reasons_bounds :
  (forall (trading_windows : list window) (a : answers) (r : report),
      evaluate trading_windows a = Returned r ->
      (0 <= final_score r <= 8)%Z
      /\ (List.length (final_reasons r) <= 5)%nat)
  /\ (exists r,
        evaluate [(mkTime 9 30, mkTime 11 30)] full_marks = Returned r
        /\ final_score r = 8%Z).
Proof.
  split.
  - intros ws a r Hr.
    destruct (evaluate_report ws a) as [targets [_ H]].
    rewrite H in Hr. injection Hr as <-. cbn [final_score final_reasons].
    split; [split; [apply score_nonnegative | apply rules_score_at_most_8] |].
    rewrite length_app, length_map.
    pose proof (rules_reasons_at_most_4 ws a
                  (fst (time_check ws (time_setup_str a)))).
    pose proof (stop_notes_at_most_1 (entry_of a) (stop_price_of a) (atr_of a)
                  (direction a)).
    lia.
  - eexists. split; reflexivity.
Qed.

(** The thin breakout scores 2 and carries two reasons. *)
Lemma score_and_reasons_bounds_holds :
  exists r,
    evaluate [] thin_breakout = Returned r
    /\ (0 <= final_score r <= 8)%Z
    /\ (List.length (final_reasons r) <= 5)%nat.
Proof.
  eexists. split; [reflexivity |].
  apply (proj1 score_and_reasons_bounds [] thin_breakout). reflexivity.
Defined.

Section Verdict.

Open Scope Z_scope.

Lemma validity_not_recommended (r : report) :
  should_trade r = true ->
  (validity r = NotRecommended <-> final_score r < 3).
Proof.
  intros Ht. unfold validity. rewrite Ht. cbn [andb].
  destruct (3 <=? final_score r) eqn:E.
  - apply Z.leb_le in E. split; [discriminate | lia].
  - apply Z.leb_gt in E. split; [auto | reflexivity].
Qed.

(** When the decision is to trade, the score of rules 1-4 is below 3
    exactly on a breakout in a consolidation with no point from the timing
    rule and without both alignment and an ICT level. *)
Lemma trading_score_below_3 (trading_windows : list window) (a : answers)
  (ok : bool) :
  decision_table a = true ->
  (score (rules trading_windows a ok) < 3 <->
   market_env a = Consolidation
   /\ Text.mem "breakout" (patterns a) = true
   /\ score (rule_timing trading_windows a ok start) = 0
   /\ aligned a && ict_confirm a = false).
Proof.
  destruct (rules_split trading_windows a ok) as [-> _].
  unfold decision_table, structural_mismatch, aligned.
  pose proof (breakout_confirms a) as Hb.
  assert (score (rule_timing trading_windows a ok start) = 0
          \/ score (rule_timing trading_windows a ok start) = 1) as Htm.
  { unfold rule_timing.
    destruct trading_windows; [now left |].
    destruct (Text.truthy (time_setup_str a)); [| now left].
    destruct ok; cbn; auto. }
  unfold rule_structure, rule_environment, rule_confirmation.
  destruct (pattern_confirm a), (ict_confirm a),
    (direction a), (structure_1h a), (market_env a);
    cbn [andb orb negb is_unclear]; intros Hd; try discriminate Hd;
    repeat match goal with
           | |- context [if ?c then _ else _] => destruct c eqn:?
           end;
    cbn [score add append start];
    try (specialize (Hb eq_refl); discriminate Hb);
    split;
    try (intros (He & Hm & Ht & Ha);
         first [discriminate He | discriminate Hm | discriminate Ha | lia]);
    try (intros Hlt; repeat split; first [reflexivity | lia]).
Qed.

End Verdict.

(** X14: the verdict against the decision.  A direction aligned with the
    structure together with both a classic pattern and an ICT level always
    gets the valid verdict, whatever the environment and the time.  When
    the decision is to trade, the verdict is nevertheless "not
    recommended" in exactly one situation: a breakout in a consolidation,
    with no point from the timing rule, unless the trade is both aligned
    and backed by an ICT level. *)
Theorem verdict_against_decision :
  forall (trading_windows : list window) (a : answers) (r : report),
    evaluate trading_windows a = Returned r ->
    (aligned a = true -> pattern_confirm a = true -> ict_confirm a = true ->
     validity r = LooksValid)
    /\ (should_trade r = true ->
        (validity r = NotRecommended <->
         market_env a = Consolidation
         /\ Text.mem "breakout" (patterns a) = true
         /\ score (rule_timing trading_windows a (time_ok r) start) = 0%Z
         /\ aligned a && ict_confirm a = false)).
Proof.
  intros ws a r Hr.
  destruct (final_score_rules _ _ _ Hr) as [Hs _].
  pose proof (should_trade_table _ _ _ Hr) as Hd.
  assert (should_trade r = true ->
          (validity r = NotRecommended <->
           market_env a = Consolidation
           /\ Text.mem "breakout" (patterns a) = true
           /\ score (rule_timing ws a (time_ok r) start) = 0%Z
           /\ aligned a && ict_confirm a = false)) as Hmain.
  { intros Ht. rewrite (validity_not_recommended r Ht), Hs.
    apply trading_score_below_3. now rewrite <- Hd. }
  split; [| exact Hmain].
  intros Ha Hp Hi.
  assert (should_trade r = true) as Ht.
  { rewrite Hd. unfold decision_table, structural_mismatch.
    unfold aligned in Ha. rewrite Hp, Hi.
    destruct (direction a), (structure_1h a); try discriminate Ha; reflexivity. }
  pose proof (Hmain Ht) as Hm.
  destruct (validity r); [reflexivity |].
  destruct (proj1 Hm eq_refl) as (_ & _ & _ & Hv).
  rewrite Ha, Hi in Hv. discriminate Hv.
Qed.

(** The thin breakout: the decision is to trade, the verdict is not. *)
Lemma verdict_against_decision_holds :
  exists r,
    evaluate [] thin_breakout = Returned r
    /\ should_trade r = true
    /\ (validity r = NotRecommended <->
        market_env thin_breakout = Consolidation
        /\ Text.mem "breakout" (patterns thin_breakout) = true
        /\ score (rule_timing [] thin_breakout (time_ok r) start) = 0%Z
        /\ aligned thin_breakout && ict_confirm thin_breakout = false).
Proof.
  eexists. split; [reflexivity |]. split; [reflexivity |].
  apply (verdict_against_decision [] thin_breakout); reflexivity.
Defined.

(** ** The stop, the targets and the hint in the report *)

Section StopAndTargets.

Open Scope float_scope.

Lemma stop_stage_keeps_typed_stop (entry atr : option float) (p : float)
  (d : side) :
  suggested (stop_stage entry (Some p) atr d) = Some p.
Proof. unfold stop_stage. destruct entry; reflexivity. Qed.

Lemma typed_number (t : num_text) : typed t = false <-> t = Blank.
Proof. destruct t; cbn; split; intros; try discriminate; reflexivity. Qed.

End StopAndTargets.

(** X15: a stop that was typed is never replaced by one derived from ATR,
    and the report never prints the "Provided Stop" line: when there is an
    entry the stop line is "Suggested Stop" with the resolved stop and a
    distance, typed stop included, or "Stop: NONE" when neither a stop nor
    an ATR was given; without an entry no stop line is printed. *)
Theorem report_stop_line :
  forall (trading_windows : list window) (a : answers) (r : report),
    evaluate trading_windows a = Returned r ->
    (forall p : float, stop_price_of a = Some p -> suggested_stop r = Some p)
    /\ match Report.stop_line_of (entry_of a) (stop_price_of a)
               (suggested_stop r) (stop_distance r) with
       | Some (SuggestedStopLine s (Some _)) => resolved_stop a = Some s
       | Some (SuggestedStopLine _ None) => False
       | Some (ProvidedStopLine _ _) => False
       | Some NoStopLine => stop_price_of a = None /\ atr_of a = None
       | None => entry_of a = None
       end.
Proof.
  intros ws a r Hr.
  destruct (evaluate_report ws a) as [targets [_ H]].
  rewrite H in Hr. injection Hr as <-. cbn [suggested_stop stop_distance].
  unfold resolved_stop, Report.stop_line_of, stop_stage, used_stop,
    Calc.suggest_stop_from_atr.
  destruct (entry_of a) as [e |], (stop_price_of a) as [p |],
    (atr_of a) as [v |]; cbn; split; auto; intros q Hq;
    first [exact Hq | discriminate Hq].
Qed.

(** A stop typed as 1.095 under an entry of 1.1. *)
Lemma report_stop_line_holds :
  let a := mkAnswers Long Higher Expansion ["breakout"%string] Y N N ""
             (Number 1.1) (Number 1.095) Blank Blank Blank in
  exists r,
    evaluate [] a = Returned r
    /\ suggested_stop r = Some 1.095%float
    /\ Report.stop_line_of (entry_of a) (stop_price_of a)
         (suggested_stop r) (stop_distance r)
       = Some (SuggestedStopLine 1.095 (Some 0.005))%float.
Proof.
  eexists. split; [reflexivity |]. split; [| vm_compute; reflexivity].
  apply (proj1 (report_stop_line []
                  (mkAnswers Long Higher Expansion ["breakout"%string] Y N N ""
                     (Number 1.1) (Number 1.095) Blank Blank Blank) _ eq_refl)).
  reflexivity.
Defined.

(** X16: when take-profit levels are listed there are exactly three, at
    the multiples 1.0, 1.5 and 2.0 in this order, and they are computed by
    [r_multiples] from the entry and the resolved stop, the typed stop if
    there is one and the stop derived from ATR otherwise. *)
Theorem report_targets :
  forall (trading_windows : list window) (a : answers) (r : report),
    evaluate trading_windows a = Returned r ->
    tps r <> [] ->
    exists e u,
      entry_of a = Some e /\ resolved_stop a = Some u
      /\ tps r = Calc.r_multiples e u (direction a) [1.0; 1.5; 2.0]%float
      /\ map fst (tps r) = [1.0; 1.5; 2.0]%float.
Proof.
  intros ws a r Hr Hne.
  destruct (evaluate_report ws a) as [targets [Htp H]].
  rewrite H in Hr. injection Hr as <-. cbn [tps] in *.
  unfold resolved_stop. unfold take_profits in Htp.
  destruct (entry_of a) as [e |]; cbn [is_some andb] in Htp;
    [| injection Htp as <-; contradiction].
  destruct (truthy (py_or _ (stop_price_of a)));
    [| injection Htp as <-; contradiction].
  destruct (used_stop _ (stop_price_of a)) as [u |]; [| discriminate Htp].
  injection Htp as <-. exists e, u.
  split; [reflexivity |]. split; [reflexivity |]. split; reflexivity.
Qed.

(** Entry 1.1 and an ATR of 0.002 on a long. *)
Lemma report_targets_holds :
  let a := mkAnswers Long Higher Expansion ["breakout"%string] Y N N ""
             (Number 1.1) Blank (Number 0.002) Blank Blank in
  exists r,
    evaluate [] a = Returned r
    /\ tps r <> []
    /\ exists e u,
        entry_of a = Some e /\ resolved_stop a = Some u
        /\ tps r = Calc.r_multiples e u (direction a) [1.0; 1.5; 2.0]%float
        /\ map fst (tps r) = [1.0; 1.5; 2.0]%float.
Proof.
  eexists. split; [reflexivity |]. split; [discriminate |].
  apply (report_targets []
           (mkAnswers Long Higher Expansion ["breakout"%string] Y N N ""
              (Number 1.1) Blank (Number 0.002) Blank Blank));
    [reflexivity | discriminate].
Defined.

Section Hint.

Ltac hint_cases acct_s risk_pct_s entry stop_price suggested_stop :=
  unfold position_hint, sizing, used_stop;
  destruct acct_s as [| ? | ?], risk_pct_s as [| ? | ?],
    entry as [? |], stop_price as [? |], suggested_stop as [? |];
  cbn [typed is_some andb orb to_float bind try_except];
  repeat match goal with
         | |- context [if ?c then _ else _] => destruct c
         end;
  cbn [try_except].

Lemma position_hint_none (acct_s risk_pct_s : num_text)
  (entry stop_price suggested_stop : option float) :
  position_hint acct_s risk_pct_s entry stop_price suggested_stop = None <->
  acct_s = Blank /\ risk_pct_s = Blank.
Proof.
  hint_cases acct_s risk_pct_s entry stop_price suggested_stop;
    (split; [intros H; try discriminate H; auto
            | intros [H1 H2]; try discriminate H1; try discriminate H2;
              reflexivity]).
Qed.

Lemma position_hint_never_no_stop (acct_s risk_pct_s : num_text)
  (entry stop_price suggested_stop : option float) :
  position_hint acct_s risk_pct_s entry stop_price suggested_stop
  <> Some (HintMessage no_stop_hint).
Proof.
  hint_cases acct_s risk_pct_s entry stop_price suggested_stop; discriminate.
Qed.

Lemma position_hint_error (acct_s risk_pct_s : num_text)
  (entry stop_price suggested_stop : option float) (e : exn) :
  position_hint acct_s risk_pct_s entry stop_price suggested_stop
  = Some (SizingError e) ->
  entry <> None /\ used_stop suggested_stop stop_price <> None
  /\ (acct_s = Malformed e
      \/ (exists x, acct_s = Number x) /\ risk_pct_s = Malformed e).
Proof.
  hint_cases acct_s risk_pct_s entry stop_price suggested_stop;
    intros H; try discriminate H;
    injection H as <-;
    (split; [discriminate |]); (split; [discriminate |]);
    first [left; reflexivity | right; split; [eexists |]; reflexivity].
Qed.

Lemma position_hint_both_typed_no_prices (acct_s risk_pct_s : num_text)
  (entry stop_price suggested_stop : option float) :
  typed acct_s = true -> typed risk_pct_s = true ->
  entry = None \/ used_stop suggested_stop stop_price = None ->
  position_hint acct_s risk_pct_s entry stop_price suggested_stop
  = Some (HintMessage provide_both_hint).
Proof.
  hint_cases acct_s risk_pct_s entry stop_price suggested_stop;
    intros H1 H2 [H | H];
    first [discriminate H1 | discriminate H2 | discriminate H | reflexivity].
Qed.

End Hint.

(** X17: the position-sizing hint is absent exactly when both the account
    and the risk lines are blank; the sentence "No stop price available"
    is never produced; a sizing error is reported only when entry and stop
    are there and the account or the risk text is not a number, and it
    quotes that text's exception; and when both lines are typed but the
    entry or the stop is missing, the hint asks to provide both account
    size and risk percent. *)
Theorem report_hint :
  forall (trading_windows : list window) (a : answers) (r : report),
    evaluate trading_windows a = Returned r ->
    (pos_hint r = None <-> acct_s a = Blank /\ risk_pct_s a = Blank)
    /\ pos_hint r <> Some (HintMessage no_stop_hint)
    /\ (forall e : exn,
           pos_hint r = Some (SizingError e) ->
           entry_of a <> None /\ resolved_stop a <> None
           /\ (acct_s a = Malformed e
               \/ (exists x, acct_s a = Number x) /\ risk_pct_s a = Malformed e))
    /\ (typed (acct_s a) = true -> typed (risk_pct_s a) = true ->
        entry_of a = None \/ resolved_stop a = None ->
        pos_hint r = Some (HintMessage provide_both_hint)).
Proof.
  intros ws a r Hr.
  destruct (evaluate_report ws a) as [targets [_ H]].
  rewrite H in Hr. injection Hr as <-. cbn [pos_hint]. unfold resolved_stop.
  split; [apply position_hint_none |].
  split; [apply position_hint_never_no_stop |].
  split; [intros e; apply position_hint_error |].
  apply position_hint_both_typed_no_prices.
Qed.

(** Account and risk typed with no entry. *)
Lemma report_hint_holds :
  let a := mkAnswers Long Higher Expansion ["breakout"%string] Y N N ""
             Blank Blank Blank (Number 10000) (Number 1) in
  typed (acct_s a) = true /\ typed (risk_pct_s a) = true
  /\ entry_of a = None
  /\ exists r,
      evaluate [] a = Returned r
      /\ pos_hint r = Some (HintMessage provide_both_hint).
Proof.
  repeat (split; [reflexivity |]).
  eexists. split; [reflexivity |].
  apply (report_hint []
           (mkAnswers Long Higher Expansion ["breakout"%string] Y N N ""
              Blank Blank Blank (Number 10000) (Number 1)) _ eq_refl);
    [reflexivity | reflexivity | left; reflexivity].
Defined.

(** ** The setup time against the windows *)

Section Timing.

Open Scope string_scope.

Lemma time_check_by_false (parse : string -> option time)
  (trading_windows : list window) (a : answers) :
  fst (time_check_by parse trading_windows (time_setup_str a)) = false <->
  outside_windows_by parse trading_windows a.
Proof.
  unfold time_check_by, outside_windows_by.
  rewrite <- truthy_nonempty.
  destruct (Text.truthy (time_setup_str a)) eqn:Ht.
  - destruct (parse (time_setup_str a)) as [t |] eqn:Hp.
    + destruct trading_windows as [| w ws]; cbn [fst].
      * split; [discriminate |]. intros [H _]. contradiction.
      * split.
        -- intros H. split; [discriminate |]. split; [reflexivity |]. eauto.
        -- intros (_ & _ & t' & Ht' & H). injection Ht' as <-. exact H.
    + cbn [fst]. split; [discriminate |].
      intros (_ & _ & t & H & _). discriminate H.
  - cbn [fst]. split; [discriminate |].
    intros (_ & H & _). discriminate H.
Qed.

Lemma append_cancel (s x y : string) : s ++ x = s ++ y -> x = y.
Proof.
  induction s as [| c rest IH]; cbn; [auto |].
  intros H. injection H as H. auto.
Qed.

Lemma time_line_outside (trading_windows : list window) (a : answers) (ok : bool) :
  Report.time_line trading_windows (time_setup_str a) ok = Some (outside_line a) <->
  trading_windows <> [] /\ Text.truthy (time_setup_str a) = true /\ ok = false.
Proof.
  unfold Report.time_line, outside_line.
  destruct trading_windows as [| w ws].
  - split; [discriminate |]. intros [H _]. contradiction.
  - destruct (Text.truthy (time_setup_str a)).
    + destruct ok.
      * split.
        -- intros H. injection H as H. apply append_cancel in H.
           discriminate H.
        -- intros (_ & _ & H). discriminate H.
      * split; [| reflexivity]. intros _. repeat split. discriminate.
    + split; [discriminate |]. intros (_ & H & _). discriminate H.
Qed.

Lemma rule_timing_start (trading_windows : list window) (a : answers) (ok : bool) :
  rule_timing trading_windows a ok start
  = match trading_windows with
    | [] => start
    | _ :: _ =>
        if Text.truthy (time_setup_str a) then
          if ok then mkTally 1 [] else mkTally 0 [outside_windows_note]
        else start
    end.
Proof.
  unfold rule_timing. destruct trading_windows; [reflexivity |].
  destruct (Text.truthy (time_setup_str a)); [| reflexivity].
  destruct ok; reflexivity.
Qed.

Lemma outside_note_not_in_rules_1_to_3 (a : answers) :
  ~ In outside_windows_note
      (reasons (rule_structure a start)
       ++ reasons (rule_environment a start)
       ++ reasons (rule_confirmation a start)).
Proof.
  intros Hin. apply (outside_note_not_before_timing a). fold start.
  rewrite (rule_confirmation_additive a
             (rule_environment a (rule_structure a start))),
    (rule_environment_additive a (rule_structure a start)).
  cbn [reasons]. now rewrite <- app_assoc.
Qed.

End Timing.

(** X18: the setup time is counted as outside the trading windows exactly
    when windows are configured, a setup time was typed and it is read as
    a time that none of the windows holds.  Exactly then [time_ok] is
    false, the "outside your allowed trading windows" reason is recorded
    and the report's time line says OUTSIDE.  The timing rule gives its
    point whenever windows are configured, something was typed as the
    setup time and the time is not outside in this sense: a text that is
    not read as a time earns the point as well.  This holds whatever
    texts [parse_time_str] accepts: [parse] is any function from the
    typed text to a time or [None], and with [Clock.parse_time_str] for
    it the evaluation is [evaluate]. *)
Theorem outside_windows_consistent :
  (forall (trading_windows : list window) (a : answers),
      evaluate_by parse_time_str trading_windows a = evaluate trading_windows a)
  /\ forall (parse : string -> option time)
            (trading_windows : list window) (a : answers) (r : report),
      evaluate_by parse trading_windows a = Returned r ->
      (time_ok r = false <-> outside_windows_by parse trading_windows a)
      /\ (In (Note outside_windows_note) (final_reasons r) <->
          outside_windows_by parse trading_windows a)
      /\ (Report.time_line trading_windows (time_setup_str a) (time_ok r)
          = Some (outside_line a) <->
          outside_windows_by parse trading_windows a)
      /\ (score (rule_timing trading_windows a (time_ok r) start) = 1%Z <->
          trading_windows <> [] /\ time_setup_str a <> ""%string
          /\ ~ outside_windows_by parse trading_windows a).
Proof.
  split; [exact evaluate_by_parse_time_str |].
  intros parse ws a r Hr.
  destruct (evaluate_by_report parse ws a) as [targets [_ H]].
  rewrite H in Hr. injection Hr as <-. cbn [time_ok final_reasons].
  pose proof (time_check_by_false parse ws a) as Hok.
  set (ok := fst (time_check_by parse ws (time_setup_str a))) in *.
  split; [exact Hok |]. split; [| split].
  - rewrite <- Hok. rewrite in_app_iff, in_map_iff.
    destruct (rules_split ws a ok) as [_ ->].
    rewrite rule_timing_start. split.
    + intros [[n [Hn Hin]] | Hin].
      * injection Hn as ->. rewrite !app_assoc in Hin.
        apply in_app_or in Hin. destruct Hin as [Hin | Hin].
        -- exfalso. apply (outside_note_not_in_rules_1_to_3 a).
           now rewrite !app_assoc.
        -- destruct ws; [destruct Hin |].
           destruct (Text.truthy (time_setup_str a)); [| destruct Hin].
           destruct ok; [destruct Hin | reflexivity].
      * exfalso. exact (outside_note_not_in_stop_notes _ _ _ _ Hin).
    + intros Hf. left. exists outside_windows_note. split; [reflexivity |].
      destruct (proj1 Hok Hf) as (Hne & Hp & _).
      apply truthy_nonempty in Hp. rewrite Hp, Hf.
      destruct ws; [contradiction |].
      rewrite !in_app_iff. right. right. right. left. reflexivity.
  - rewrite time_line_outside, <- Hok. split.
    + intros (_ & _ & Hf). exact Hf.
    + intros Hf. pose proof Hf as Hf'. apply Hok in Hf'.
      destruct Hf' as (Hne & Hp & _).
      repeat split; auto. now apply truthy_nonempty.
  - rewrite rule_timing_start, <- Hok. rewrite <- truthy_nonempty.
    destruct ws as [| w ws'].
    + cbn. split; [discriminate |]. intros [Hc _]. contradiction.
    + destruct (Text.truthy (time_setup_str a)).
      * destruct ok; cbn; split; try discriminate; try congruence.
        -- intros _. repeat split; congruence.
        -- intros (_ & _ & Hc). contradiction.
      * cbn. split; [discriminate |]. intros (_ & Hc & _). discriminate Hc.
Qed.

(** Noon against the morning window: outside, on every count. *)
Lemma outside_windows_consistent_holds :
  let a := mkAnswers Long Higher Expansion ["breakout"%string] Y N N "12:00"
             Blank Blank Blank Blank Blank in
  let morning := [(mkTime 9 30, mkTime 11 30)] in
  exists r,
    evaluate morning a = Returned r
    /\ outside_windows_by parse_time_str morning a
    /\ time_ok r = false
    /\ In (Note outside_windows_note) (final_reasons r)
    /\ Report.time_line morning (time_setup_str a) (time_ok r)
       = Some "Time of setup: 12:00 -> OUTSIDE allowed windows"%string.
Proof.
  eexists. split; [reflexivity |].
  pose proof (proj2 outside_windows_consistent parse_time_str
                [(mkTime 9 30, mkTime 11 30)]
                (mkAnswers Long Higher Expansion ["breakout"%string] Y N N "12:00"
                   Blank Blank Blank Blank Blank) _ eq_refl)
    as (H1 & H2 & H3 & _).
  assert (outside_windows_by parse_time_str [(mkTime 9 30, mkTime 11 30)]
            (mkAnswers Long Higher Expansion ["breakout"%string] Y N N "12:00"
               Blank Blank Blank Blank Blank)) as Hout.
  { split; [discriminate |]. split; [discriminate |].
    exists (mkTime 12 0). split; reflexivity. }
  split; [exact Hout |].
  split; [exact (proj2 H1 Hout) |].
  split; [exact (proj2 H2 Hout) | exact (proj2 H3 Hout)].
Defined.

(** ** The stop derived from ATR *)

(** X19: ATR is used only when there is an entry and no typed stop.  Then
    the suggested stop is the entry minus (long) or plus (short) 1.5 times
    ATR, rounded to five decimals, the stop distance is 1.5 times ATR
    rounded to five decimals, and the reasons end with the note that quotes
    this distance.  When the entry is missing or a stop is typed, what is
    typed as ATR changes nothing in the report. *)
Theorem atr_stop_only_without_typed_stop :
  (forall (trading_windows : list window) (a : answers) (r : report)
          (e v : float),
      evaluate trading_windows a = Returned r ->
      entry_of a = Some e -> stop_price_of a = None -> atr_s a = Number v ->
      suggested_stop r
      = Some (Binary64.round match direction a with
                             | Long => e - v * 1.5
                             | Short => e + v * 1.5
                             end 5)%float
      /\ stop_distance r = Some (Binary64.round (v * 1.5) 5)%float
      /\ (exists noted,
             final_reasons r
             = noted ++ [AtrStopNote (Binary64.round (v * 1.5) 5)%float])
      /\ (suggested_stop r, stop_distance r)
         = (Some (fst (Calc.suggest_stop_from_atr e (direction a) v 1.5%float)),
            Some (snd (Calc.suggest_stop_from_atr e (direction a) v 1.5%float))))
  /\ (forall (trading_windows : list window) (a : answers) (t : num_text),
         entry_of a = None \/ stop_price_of a <> None ->
         evaluate trading_windows (with_atr a t) = evaluate trading_windows a).
Proof.
  split.
  - intros ws a r e v Hr He Hs Hv.
    destruct (evaluate_report ws a) as [targets [_ H]].
    rewrite H in Hr. injection Hr as <-.
    cbn [suggested_stop stop_distance final_reasons].
    assert (atr_of a = Some v) as Ha.
    { unfold atr_of. rewrite He, Hs, Hv. reflexivity. }
    rewrite He, Hs, Ha. unfold stop_stage, Calc.suggest_stop_from_atr.
    cbn [suggested distance stop_notes fst snd].
    split; [destruct (direction a); reflexivity |].
    split; [reflexivity |].
    split; [eexists; reflexivity |].
    destruct (direction a); reflexivity.
  - intros ws a t Hno. unfold evaluate.
    assert (atr_of (with_atr a t) = atr_of a) as Ha.
    { unfold atr_of. change (entry_of (with_atr a t)) with (entry_of a).
      change (stop_price_of (with_atr a t)) with (stop_price_of a).
      destruct Hno as [-> | Hs]; [reflexivity |].
      destruct (entry_of a); [| reflexivity].
      destruct (stop_price_of a); [reflexivity | contradiction]. }
    rewrite Ha. reflexivity.
Qed.

(** An ATR of 0.002 under an entry of 1.1 on a short. *)
Lemma atr_stop_only_without_typed_stop_holds :
  let a := mkAnswers Short Lower Expansion ["breakout"%string] Y N N ""
             (Number 1.1) Blank (Number 0.002) Blank Blank in
  entry_of a = Some 1.1%float /\ stop_price_of a = None
  /\ atr_s a = Number 0.002
  /\ exists r,
      evaluate [] a = Returned r
      /\ suggested_stop r = Some 1.103%float
      /\ stop_distance r = Some 0.003%float.
Proof.
  repeat (split; [reflexivity |]).
  eexists. split; [reflexivity |].
  destruct (proj1 atr_stop_only_without_typed_stop []
              (mkAnswers Short Lower Expansion ["breakout"%string] Y N N ""
                 (Number 1.1) Blank (Number 0.002) Blank Blank)
              _ 1.1%float 0.002%float eq_refl eq_refl eq_refl eq_refl)
    as (H1 & H2 & _).
  split; [rewrite H1 | rewrite H2]; vm_compute; reflexivity.
Defined.
